(** * Moodle forum scraper: a shallow embedding of [src/forum_scraper.py]

    The development follows the layout of the Python module:
    - the string operations the scraper relies on ([str.lower], [str.strip],
      [str.startswith], the [in] test on strings);
    - the parsed markup tree and the CSS queries issued against it;
    - the [MoodleForumScraper] methods, written in a small monad that threads
      the remote server, the log and the other observable events, and that
      carries Python exceptions;
    - the interactive driver [main];
    - the properties of these definitions. *)

From Stdlib Require Import String Ascii List Bool Arith Lia ZArith DecimalString.
Import ListNotations.
Local Open Scope nat_scope.
Local Open Scope list_scope.
Local Open Scope string_scope.

(** ** Python strings

    A [string] is a sequence of characters, one [ascii] per character: the
    character with code point [n] is [ascii_of_nat n], for [n] from U+0000 to
    U+00FF (ASCII and the Latin-1 supplement, which has the accented letters
    of the Spanish text the scraper is run on).  Lengths and slices so count
    characters, as Python's do.  Text with characters from U+0100 on is not
    represented. *)

Module PyStr.

(** [c.isspace()], the characters that [str.strip] removes and at which the
    markup parser splits a class attribute: TAB, LF, VT, FF, CR, the four
    separators U+001C-U+001F, the space, NEL (U+0085) and the no-break space
    (U+00A0). *)
Definition is_space (c : ascii) : bool :=
let n := nat_of_ascii c in
((9 <=? n)%nat && (n <=? 13)%nat) || ((28 <=? n)%nat && (n <=? 32)%nat)
|| (n =? 133)%nat || (n =? 160)%nat.

(** [c.lower()]: the capitals A-Z and those of the Latin-1 supplement
    (U+00C0-U+00DE but the multiplication sign U+00D7) are 32 below their
    small letter. *)
Definition lower_char (c : ascii) : ascii :=
let n := nat_of_ascii c in
if ((65 <=? n)%nat && (n <=? 90)%nat)
   || ((192 <=? n)%nat && (n <=? 222)%nat && negb (n =? 215)%nat)
then ascii_of_nat (n + 32) else c.

(** [s.lower()] *)
Fixpoint lower (s : string) : string :=
match s with
| EmptyString => EmptyString
| String c s' => String (lower_char c) (lower s')
end.

(** [s.startswith(p)] *)
Definition startswith (s p : string) : bool := String.prefix p s.

(** [needle in s] *)
Fixpoint contains (needle s : string) : bool :=
String.prefix needle s ||
match s with
| EmptyString => false
| String _ s' => contains needle s'
end.

Fixpoint lstrip (s : string) : string :=
match s with
| EmptyString => EmptyString
| String c s' => if is_space c then lstrip s' else s
end.

Fixpoint rstrip (s : string) : string :=
match s with
| EmptyString => EmptyString
| String c s' =>
    match rstrip s' with
    | EmptyString => if is_space c then EmptyString else String c EmptyString
    | r => String c r
    end
end.

(** [s.strip()] *)
Definition strip (s : string) : string := rstrip (lstrip s).

(** The maximal runs of non-space characters of [s], in order. *)
Fixpoint words (s : string) : list string :=
match s with
| EmptyString => []
| String c s' =>
    if is_space c then words s'
    else match s' with
         | EmptyString => [String c EmptyString]
         | String c' _ =>
             if is_space c' then String c EmptyString :: words s'
             else match words s' with
                  | w :: ws => String c w :: ws
                  | [] => [String c EmptyString]
                  end
         end
end.

(** [s[:n]] *)
Definition take (n : nat) (s : string) : string := String.substring 0 n s.

(** [c * n] for a one-character string [c] *)
Fixpoint repeat_char (c : ascii) (n : nat) : string :=
match n with
| O => EmptyString
| S n' => String c (repeat_char c n')
end.

(** [str(n)] for a non-negative integer *)
Definition str_of_nat (n : nat) : string := NilZero.string_of_uint (Nat.to_uint n).

(** Truthiness of a string: non-empty. *)
Definition truthy (s : string) : bool :=
match s with EmptyString => false | _ => true end.

End PyStr.

(** ** The parsed document

    What [BeautifulSoup(text, 'html.parser')] hands to the scraper: a tree of
    tags and text nodes.  A tag carries its name, its attributes in source
    order, and its contents.  The [class] attribute is kept as written; the
    class list of a tag is the list of its white-space separated words. *)

Module Soup.

#[warnings="-register-all"]
Inductive node : Type :=
| NavigableString (s : string)
| Tag (name : string) (attrs : list (string * string)) (contents : list node).

Definition is_tag (n : node) : bool :=
match n with Tag _ _ _ => true | NavigableString _ => false end.

Definition tag_name (n : node) : string :=
match n with Tag nm _ _ => nm | NavigableString _ => "" end.

Definition tag_attrs (n : node) : list (string * string) :=
match n with Tag _ a _ => a | NavigableString _ => [] end.

Fixpoint assoc (k : string) (l : list (string * string)) : option string :=
match l with
| [] => None
| (k', v) :: l' => if String.eqb k k' then Some v else assoc k l'
end.

(** [tag.get(key)]: [None] when the attribute is absent. *)
Definition get (n : node) (key : string) : option string := assoc key (tag_attrs n).

(** [tag.get(key, default)] *)
Definition get_default (n : node) (key default : string) : string :=
match get n key with Some v => v | None => default end.

Definition classes (n : node) : list string :=
match get n "class" with Some v => PyStr.words v | None => [] end.

(** *** CSS queries

    Only the selector shapes the scraper uses are represented: compound
    selectors made of an optional type selector, class selectors and
    attribute tests ([[a="v"]] and [[a*="v"]]), chained by the descendant
    combinator. *)

Inductive attr_test : Type :=
| AttrEquals (name value : string)
| AttrContains (name value : string).

Record compound : Type := {
  c_type : option string;
  c_classes : list string;
  c_attrs : list attr_test }.

(** A complex selector: compounds joined by descendant combinators, the
    subject (rightmost compound) last. *)
Definition selector : Type := list compound.

Definition mem (x : string) (l : list string) : bool := existsb (String.eqb x) l.

Definition attr_test_holds (n : node) (t : attr_test) : bool :=
match t with
| AttrEquals a v =>
    match get n a with Some w => String.eqb w v | None => false end
| AttrContains a v =>
    match get n a with
    | Some w => PyStr.truthy v && PyStr.contains v w
    | None => false
    end
end.

Definition matches_compound (c : compound) (n : node) : bool :=
is_tag n &&
match c_type c with Some t => String.eqb (tag_name n) t | None => true end &&
forallb (fun cl => mem cl (classes n)) (c_classes c) &&
forallb (attr_test_holds n) (c_attrs c).

(** [ancestors_match cs anc]: the compounds [cs] (nearest first) are matched by
    a chain of ancestors taken in order from [anc] (nearest ancestor first). *)
Fixpoint ancestors_match (cs : list compound) (anc : list node) : bool :=
match cs with
| [] => true
| c :: cs' =>
    (fix find (anc : list node) : bool :=
       match anc with
       | [] => false
       | a :: anc' =>
           if matches_compound c a then ancestors_match cs' anc' else find anc'
       end) anc
end.

Definition matches (sel : selector) (anc : list node) (n : node) : bool :=
match rev sel with
| [] => false
| c :: cs => matches_compound c n && ancestors_match cs anc
end.

(** The descendants of [n] that match [sel], in document order; [anc] lists
    the ancestors of [n], nearest first. *)
Fixpoint select_under (sel : selector) (anc : list node) (n : node) : list node :=
match n with
| NavigableString _ => []
| Tag _ _ cs =>
    flat_map (fun c =>
      match c with
      | NavigableString _ => []
      | Tag _ _ _ =>
          ((if matches sel (n :: anc) c then [c] else [])
             ++ select_under sel (n :: anc) c)%list
      end) cs
end.

(** [tag.select(sel)] *)
Definition select (sel : selector) (n : node) : list node := select_under sel [] n.

(** [tag.select_one(sel)]: the first match, [None] when there is none. *)
Definition select_one (sel : selector) (n : node) : option node := hd_error (select sel n).

(** *** Text extraction *)

Fixpoint all_strings (n : node) : list string :=
match n with
| NavigableString s => [s]
| Tag _ _ cs => flat_map all_strings cs
end.

(** [tag.text], that is [tag.get_text()] *)
Definition text (n : node) : string := String.concat "" (all_strings n).

(** [tag.get_text(strip=True)]: every string is stripped and the strings that
    become empty are left out. *)
Definition get_text_strip (n : node) : string :=
String.concat "" (filter PyStr.truthy (map PyStr.strip (all_strings n))).

End Soup.

(** ** Effects

    A method of the scraper runs against a [World]: the remote server it
    talks to, and the trace of what it did (log records, HTTP requests,
    pauses, prompts, file writes), oldest event first.  A computation either
    returns, raises a Python exception, or runs out of the fuel that bounds
    the [while True] loop of [scrape_forum]. *)

Module Py.

(** The exception classes the handlers of the module tell apart:
    [requests.RequestException] and every other [Exception]. *)
Inductive exn : Type :=
| RequestException (msg : string)
| Exception (msg : string).

(** [str(e)] *)
Definition exn_str (e : exn) : string :=
match e with RequestException m => m | Exception m => m end.

Inductive outcome (A : Type) : Type :=
| Ret (a : A)
| Raise (e : exn)
| OutOfFuel.
Arguments Ret {A} a.
Arguments Raise {A} e.
Arguments OutOfFuel {A}.

Inductive level : Type := INFO | WARNING | ERROR.

(** The observable events.  [Log] is a record handed to [logging], which
    shows it on the console and appends it to [scraper.log]; [FileWrite path
    text] is a file opened for writing at [path] and left holding [text]. *)
Inductive event : Type :=
| Log (lvl : level) (msg : string)
| HttpGet (moodle_session : string) (url : string)
| Sleep (seconds : nat)
| Prompt (text : string)
| FileWrite (path : string) (text : string).

(** What [requests] exposes of a response. *)
Record Response : Type := {
  status_code : nat;
  reason : string;
  resp_url : string;
  resp_text : string }.

Section Monad.

Variable Server : Type.

Record World : Type := { server : Server; trace : list event }.

Definition M (A : Type) : Type := World -> outcome A * World.

Definition ret {A} (a : A) : M A := fun w => (Ret a, w).

Definition bind {A B} (m : M A) (k : A -> M B) : M B :=
fun w =>
  match m w with
  | (Ret a, w') => k a w'
  | (Raise e, w') => (Raise e, w')
  | (OutOfFuel, w') => (OutOfFuel, w')
  end.

Definition raise {A} (e : exn) : M A := fun w => (Raise e, w).

Definition out_of_fuel {A} : M A := fun w => (OutOfFuel, w).

(** [try: body  except Exception as e: handler e] *)
Definition try_except {A} (body : M A) (handler : exn -> M A) : M A :=
fun w =>
  match body w with
  | (Raise e, w') => handler e w'
  | r => r
  end.

(** The world after one more event. *)
Definition after (w : World) (e : event) : World :=
{| server := server w; trace := (trace w ++ [e])%list |}.

Definition emit (e : event) : M unit := fun w => (Ret tt, after w e).

(** [logging.info], [logging.warning], [logging.error] *)
Definition log (lvl : level) (msg : string) : M unit := emit (Log lvl msg).

(** [time.sleep(n)] *)
Definition sleep (n : nat) : M unit := emit (Sleep n).

(** Lift a library call that returns or raises. *)
Definition call {A} (r : exn + A) : M A :=
match r with inl e => raise e | inr a => ret a end.

End Monad.

Arguments server {Server} w.
Arguments trace {Server} w.
Arguments ret {Server A} a.
Arguments bind {Server A B} m k.
Arguments raise {Server A} e.
Arguments out_of_fuel {Server A}.
Arguments try_except {Server A} body handler.
Arguments after {Server} w e.
Arguments emit {Server} e.
Arguments log {Server} lvl msg.
Arguments sleep {Server} n.
Arguments call {Server A} r.

End Py.

Import Soup Py.

Declare Scope py_scope.
Delimit Scope py_scope with py.
Notation "x <- m ;; k" := (bind m (fun x => k))
  (at level 61, m at next level, right associativity) : py_scope.
Notation "m ;; k" := (bind m (fun _ => k))
  (at level 61, right associativity) : py_scope.
Local Open Scope py_scope.

(** ** The scraper *)

Definition nl : string := String "010"%char EmptyString.

Module Data.

(** [@dataclass class ForumPost] *)
Record ForumPost : Type := {
  title : string;
  content : string;
  author : string;
  date : string }.

(** [Dict[str, List[ForumPost]]]: keys in insertion order. *)
Definition discussions_dict : Type := list (string * list ForumPost).

(** [d[k] = v]: an existing key keeps its place, a new key goes last. *)
Fixpoint dict_set (k : string) (v : list ForumPost) (d : discussions_dict)
  : discussions_dict :=
match d with
| [] => [(k, v)]
| (k', v') :: d' =>
    if String.eqb k k' then (k', v) :: d' else (k', v') :: dict_set k v d'
end.

Fixpoint dict_get (k : string) (d : discussions_dict) : option (list ForumPost) :=
match d with
| [] => None
| (k', v) :: d' => if String.eqb k k' then Some v else dict_get k d'
end.

(** [d.update(other)] *)
Definition dict_update (d other : discussions_dict) : discussions_dict :=
fold_left (fun acc kv => dict_set (fst kv) (snd kv) acc) other d.

End Data.

Import Data.

(** The CSS selectors of the module. *)

(** [".topic .d-flex a.w-100.h-100.d-block"] *)
Definition discussion_link_selector : selector :=
[ {| c_type := None; c_classes := ["topic"]; c_attrs := [] |};
  {| c_type := None; c_classes := ["d-flex"]; c_attrs := [] |};
  {| c_type := Some "a"; c_classes := ["w-100"; "h-100"; "d-block"]; c_attrs := [] |} ].

(** ["article.forum-post-container"] *)
Definition post_container_selector : selector :=
[ {| c_type := Some "article"; c_classes := ["forum-post-container"]; c_attrs := [] |} ].

(** [".post-content-container"] *)
Definition post_content_selector : selector :=
[ {| c_type := None; c_classes := ["post-content-container"]; c_attrs := [] |} ].

(** ["header"] *)
Definition header_selector : selector :=
[ {| c_type := Some "header"; c_classes := []; c_attrs := [] |} ].

(** ['h3[data-region-content="forum-post-core-subject"]'] *)
Definition title_selector : selector :=
[ {| c_type := Some "h3"; c_classes := [];
     c_attrs := [AttrEquals "data-region-content" "forum-post-core-subject"] |} ].

(** ['a[href*="/user/view.php"]'] *)
Definition author_link_selector : selector :=
[ {| c_type := Some "a"; c_classes := [];
     c_attrs := [AttrContains "href" "/user/view.php"] |} ].

(** ['time'] *)
Definition time_selector : selector :=
[ {| c_type := Some "time"; c_classes := []; c_attrs := [] |} ].

(** The scraper object: the base URL and the session, of which only the
    [MoodleSession] cookie varies (the user agent header is a constant). *)
Record MoodleForumScraper : Type := {
  base_url : string;
  moodle_session : string }.

(** [f"{self.base_url}&page={page}"] *)
Definition index_url (self : MoodleForumScraper) (page : nat) : string :=
base_url self ++ "&page=" ++ PyStr.str_of_nat page.

(** The text of the [HTTPError] that [raise_for_status] raises. *)
Definition http_error_msg (r : Response) : string :=
PyStr.str_of_nat (status_code r)
  ++ (if Nat.ltb (status_code r) 500 then " Client Error: " else " Server Error: ")
  ++ reason r ++ " for url: " ++ resp_url r.

(** The status codes for which [raise_for_status] raises: 4xx and 5xx. *)
Definition is_http_error (status : nat) : bool :=
Nat.leb 400 status && Nat.ltb status 600.

(** [if "login" in response.url.lower()] *)
Definition is_login_url (u : string) : bool := PyStr.contains "login" (PyStr.lower u).

(** [post.content[:100]] followed by the ellipsis of the log line *)
Definition content_preview (p : ForumPost) : string := PyStr.take 100 (content p) ++ "...".

Module Scraper.

Section Methods.

(** The collaborators of the module, outside the repository:
    - [http_get cookie url]: what [requests.Session.get] does against the
      server, which may change state with every request;
    - [BeautifulSoup text]: the [html.parser] tree of a response body;
    - [urljoin base href]: [urllib.parse.urljoin], called with the [href]
      attribute or [None];
    - [OUTPUT_DIR]: the output directory next to the installed package;
    - [path_join dir file]: the path [dir / file] of [pathlib], as text;
    - [open_error path]: the error that [open(path, 'w')] raises when the
      file cannot be opened for writing ([path] is a directory, access is
      denied, ...), [None] when the file is opened. *)
Variable Server : Type.
Variable http_get : string -> string -> Server -> (exn + Response) * Server.
Variable BeautifulSoup : string -> exn + node.
Variable urljoin : string -> option string -> exn + option string.
Variable OUTPUT_DIR : string.
Variable path_join : string -> string -> string.
Variable open_error : string -> option exn.

Local Abbreviation M := (Py.M Server).
Local Abbreviation World := (Py.World Server).

(** [MoodleForumScraper.__init__] *)
Definition init (base_url moodle_session : string) : M MoodleForumScraper :=
log INFO ("Initialized scraper for URL: " ++ base_url);;
log INFO "Cookie and headers set";;
ret {| base_url := base_url; moodle_session := moodle_session |}.

(** [self.session.get(url)] *)
Definition session_get (self : MoodleForumScraper) (url : string) : M Response :=
fun w =>
  let requested := (trace w ++ [HttpGet (moodle_session self) url])%list in
  match http_get (moodle_session self) url (server w) with
  | (inr r, s') => (Ret r, {| server := s'; trace := requested |})
  | (inl e, s') => (Raise e, {| server := s'; trace := requested |})
  end.

(** [response.raise_for_status()] *)
Definition raise_for_status (r : Response) : M unit :=
if is_http_error (status_code r)
then raise (RequestException (http_error_msg r))
else ret tt.

Definition get_page_content (self : MoodleForumScraper) (url : string)
  : M (option node) :=
try_except
  (log INFO ("Fetching URL: " ++ url);;
   response <- session_get self url;;
   raise_for_status response;;
   if is_login_url (resp_url response) then
     log ERROR "Got redirected to login page. Session cookie might be invalid";;
     ret None
   else
     soup <- call (BeautifulSoup (resp_text response));;
     ret (Some soup))
  (fun e =>
     match e with
     | RequestException _ =>
         log ERROR ("Error fetching " ++ url ++ ": " ++ exn_str e);;
         ret None
     | Exception _ =>
         log ERROR ("Unexpected error processing " ++ url ++ ": " ++ exn_str e);;
         ret None
     end).

(** What a fetch returns, case by case: [None] when the request raised, when
    the status is an HTTP error, when the final URL is a login page and when
    the body could not be parsed; the parsed page otherwise. *)
Inductive fetch_case (self : MoodleForumScraper) (url : string) (w : World)
  : option node -> Prop :=
| fetch_raised e s' :
    http_get (moodle_session self) url (server w) = (inl e, s') ->
    fetch_case self url w None
| fetch_http_error r s' :
    http_get (moodle_session self) url (server w) = (inr r, s') ->
    is_http_error (status_code r) = true ->
    fetch_case self url w None
| fetch_login r s' :
    http_get (moodle_session self) url (server w) = (inr r, s') ->
    is_login_url (resp_url r) = true ->
    fetch_case self url w None
| fetch_unparsed r s' e :
    http_get (moodle_session self) url (server w) = (inr r, s') ->
    BeautifulSoup (resp_text r) = inl e ->
    fetch_case self url w None
| fetch_parsed r s' soup :
    http_get (moodle_session self) url (server w) = (inr r, s') ->
    is_http_error (status_code r) = false ->
    is_login_url (resp_url r) = false ->
    BeautifulSoup (resp_text r) = inr soup ->
    fetch_case self url w (Some soup).

(** A fetch that fails for one of the three reported causes: the request
    raised, the status is an HTTP error, or the final URL is a login page. *)
Inductive fetch_failure (self : MoodleForumScraper) (url : string) (w : World)
  : Prop :=
| transport_failure e s' :
    http_get (moodle_session self) url (server w) = (inl (RequestException e), s') ->
    fetch_failure self url w
| status_failure r s' :
    http_get (moodle_session self) url (server w) = (inr r, s') ->
    is_http_error (status_code r) = true ->
    fetch_failure self url w
| login_redirect r s' :
    http_get (moodle_session self) url (server w) = (inr r, s') ->
    is_login_url (resp_url r) = true ->
    fetch_failure self url w.

(** The [for link in soup.select(...)] loop of [get_discussion_links]. *)
Fixpoint discussion_links_loop (self : MoodleForumScraper) (links : list node)
  (discussion_links : list string) : M (list string) :=
match links with
| [] => ret discussion_links
| link :: rest =>
    discussion_url <- call (urljoin (base_url self) (get link "href"));;
    match discussion_url with
    | Some u =>
        if PyStr.truthy u then
          log INFO ("Found discussion: " ++ PyStr.strip (text link) ++ " - " ++ u);;
          discussion_links_loop self rest (discussion_links ++ [u])%list
        else discussion_links_loop self rest discussion_links
    | None => discussion_links_loop self rest discussion_links
    end
end.

Definition get_discussion_links (self : MoodleForumScraper) (soup : node)
  : M (list string) :=
discussion_links_loop self (select discussion_link_selector soup) [].

(** The body of the [try] inside the loop of [extract_posts_from_discussion]:
    what [posts] is after the container [post_article]. *)
Definition extract_post (post_article : node) (posts : list ForumPost)
  : M (list ForumPost) :=
let post_content := select_one post_content_selector post_article in
let header := select_one header_selector post_article in
match post_content, header with
| Some post_content, Some header =>
    let title := select_one title_selector header in
    let author_link := select_one author_link_selector header in
    let date := select_one time_selector header in
    match title, author_link, date with
    | Some title, Some author_link, Some date =>
        let post := {| title := get_text_strip title;
                       content := get_text_strip post_content;
                       author := get_text_strip author_link;
                       date := get_default date "datetime" "" |} in
        log INFO (nl ++ "Post found:");;
        log INFO ("Title: " ++ Data.title post);;
        log INFO ("Author: " ++ Data.author post);;
        log INFO ("Date: " ++ Data.date post);;
        log INFO ("Content: " ++ content_preview post);;
        ret (posts ++ [post])%list
    | _, _, _ =>
        log WARNING "Incomplete post data found. Missing some required elements.";;
        ret posts
    end
| _, _ => ret posts
end.

Fixpoint posts_loop (articles : list node) (posts : list ForumPost)
  : M (list ForumPost) :=
match articles with
| [] => ret posts
| post_article :: rest =>
    posts' <- try_except (extract_post post_article posts)
                (fun e =>
                   log ERROR ("Error extracting post data: " ++ exn_str e);;
                   ret posts);;
    posts_loop rest posts'
end.

Definition extract_posts_from_discussion (self : MoodleForumScraper) (url : string)
  : M (list ForumPost) :=
soup <- get_page_content self url;;
match soup with
| None => ret []
| Some soup => posts_loop (select post_container_selector soup) []
end.

(** [if posts: all_discussions[discussion_url] = posts] *)
Definition record_posts (discussion_url : string) (posts : list ForumPost)
  (all_discussions : discussions_dict) : discussions_dict :=
match posts with
| [] => all_discussions
| _ :: _ => dict_set discussion_url posts all_discussions
end.

(** The [for discussion_url in discussion_links] loop of [scrape_forum]. *)
Fixpoint visit_discussions (self : MoodleForumScraper) (discussion_links : list string)
  (all_discussions : discussions_dict) : M discussions_dict :=
match discussion_links with
| [] => ret all_discussions
| discussion_url :: rest =>
    log INFO ("Scraping discussion: " ++ discussion_url);;
    posts <- extract_posts_from_discussion self discussion_url;;
    let all_discussions := record_posts discussion_url posts all_discussions in
    sleep 1;;
    visit_discussions self rest all_discussions
end.

(** The [while True] loop of [scrape_forum], one unit of fuel per iteration;
    it returns the loop state [(all_discussions, page)] at the [break]. *)
Fixpoint scrape_loop (fuel : nat) (self : MoodleForumScraper) (page : nat)
  (all_discussions : discussions_dict) : M (discussions_dict * nat) :=
match fuel with
| O => out_of_fuel
| S fuel' =>
    let url := index_url self page in
    log INFO ("Scraping page " ++ PyStr.str_of_nat page);;
    soup <- get_page_content self url;;
    match soup with
    | None => ret (all_discussions, page)
    | Some soup =>
        discussion_links <- get_discussion_links self soup;;
        match discussion_links with
        | [] => ret (all_discussions, page)
        | _ :: _ =>
            all_discussions <- visit_discussions self discussion_links all_discussions;;
            scrape_loop fuel' self (page + 1) all_discussions
        end
    end
end.

Definition scrape_forum (fuel : nat) (self : MoodleForumScraper) : M discussions_dict :=
st <- scrape_loop fuel self 0 [];;
ret (fst st).

(** Index page [page] of the forum is served, whatever the state of the
    server, with at least one discussion link. *)
Definition nonempty_index_page (self : MoodleForumScraper) (page : nat) : Prop :=
forall w, exists soup w1 links w2,
  get_page_content self (index_url self page) w = (Ret (Some soup), w1) /\
  get_discussion_links self soup w1 = (Ret links, w2) /\
  links <> [].

(** Index page [page] is served, whatever the state of the server, with no
    element matching the discussion link selector. *)
Definition empty_index_page (self : MoodleForumScraper) (page : nat) : Prop :=
forall w, exists soup w1,
  get_page_content self (index_url self page) w = (Ret (Some soup), w1) /\
  select discussion_link_selector soup = [].

(** What the extraction loop makes of [containers] on their own. *)
Definition extracts (containers : list node) (posts : list ForumPost) : Prop :=
forall w, exists w', posts_loop containers [] w = (Ret posts, w').

(** *** Export *)

(** ['='*80] and ['-'*40] *)
Definition rule80 : string := PyStr.repeat_char "="%char 80.
Definition rule40 : string := PyStr.repeat_char "-"%char 40.

(** The arguments of the five [f.write] calls made for one post. *)
Definition post_writes (post : ForumPost) : list string :=
[ "Title: " ++ title post ++ nl;
  "Author: " ++ author post ++ nl;
  "Date: " ++ date post ++ nl;
  "Content:" ++ nl ++ content post ++ nl;
  nl ++ rule40 ++ nl ++ nl ].

(** The arguments of the [f.write] calls made for one item of the mapping. *)
Definition discussion_writes (item : string * list ForumPost) : list string :=
app [ nl ++ rule80 ++ nl;
      "Discussion URL: " ++ fst item ++ nl;
      rule80 ++ nl ++ nl ]
    (flat_map post_writes (snd item)).

(** The text of the file once every write is done. *)
Definition export_text (discussions : discussions_dict) : string :=
String.concat "" (flat_map discussion_writes discussions).

(** [OUTPUT_DIR / output_file] *)
Definition output_path (output_file : string) : string :=
path_join OUTPUT_DIR output_file.

(** [save_to_file] from the point where [open] has returned the file: the
    writes, which leave the file with the text [export_text], and the log
    record. *)
Definition save_to_file (self : MoodleForumScraper) (discussions : discussions_dict)
  (output_file : string) : M unit :=
emit (FileWrite (output_path output_file) (export_text discussions));;
log INFO ("Forum content has been saved to " ++ output_path output_file).

(** [open(output_path, 'w', encoding='utf-8')], the first step of
    [save_to_file]: when it raises, nothing is written. *)
Definition open_for_writing (output_file : string) : M unit :=
match open_error (output_path output_file) with
| Some e => raise e
| None => ret tt
end.

(** The call [scraper.save_to_file(discussions, output_file)] in full. *)
Definition open_and_save (self : MoodleForumScraper) (discussions : discussions_dict)
  (output_file : string) : M unit :=
open_for_writing output_file;;
save_to_file self discussions output_file.

(** *** The driver *)

Definition DEFAULT_OUTPUT_FILE : string := "foro_exportado.txt".

(** [input(prompt)] reading from the lines [stdin]: the line read and the
    lines left; [EOFError] when there is none. *)
Definition input (prompt : string) (stdin : list string) : M (string * list string) :=
emit (Prompt prompt);;
match stdin with
| [] => raise (Exception "EOF when reading a line")
| line :: rest => ret (line, rest)
end.

Definition forum_url_prompt : string :=
"Enter the Moodle forum URL (or press Enter to finish): ".

Definition invalid_url_message : string :=
"Invalid URL. Please enter a complete URL starting with http:// or https://".

(** [forum_url.startswith(('http://', 'https://'))] *)
Definition valid_forum_url (forum_url : string) : bool :=
PyStr.startswith forum_url "http://" || PyStr.startswith forum_url "https://".

(** The [while True] loop of [main] that collects forum URLs.  Every
    iteration reads one line, so the loop is bounded by [stdin]; [fuel]
    bounds each call of [scrape_forum].  It returns [all_discussions] and the
    lines left unread. *)
Fixpoint forum_url_loop (fuel : nat) (moodle_session : string) (stdin : list string)
  (all_discussions : discussions_dict) : M (discussions_dict * list string) :=
match stdin with
| [] =>
    emit (Prompt forum_url_prompt);;
    raise (Exception "EOF when reading a line")
| forum_url :: stdin' =>
    emit (Prompt forum_url_prompt);;
    if negb (PyStr.truthy forum_url) then ret (all_discussions, stdin')
    else if negb (valid_forum_url forum_url) then
      log ERROR invalid_url_message;;
      forum_url_loop fuel moodle_session stdin' all_discussions
    else
      log INFO ("Starting forum scraping for URL: " ++ forum_url);;
      scraper <- init forum_url moodle_session;;
      discussions <- scrape_forum fuel scraper;;
      match discussions with
      | [] =>
          log ERROR ("No discussions were found for " ++ forum_url ++ ". This could mean:");;
          log ERROR "1. The MoodleSession cookie is invalid or expired";;
          log ERROR "2. The URL is not a valid Moodle forum";;
          log ERROR "3. The forum is empty";;
          log ERROR "4. The forum requires additional permissions";;
          forum_url_loop fuel moodle_session stdin' all_discussions
      | _ :: _ =>
          forum_url_loop fuel moodle_session stdin' (dict_update all_discussions discussions)
      end
end.

(** [sum(len(posts) for posts in all_discussions.values())] *)
Definition total_posts (all_discussions : discussions_dict) : nat :=
fold_left (fun n kv => n + length (snd kv)) all_discussions 0.

(** [main()], given the lines typed by the operator and the value of the
    [OUT_FILE] environment variable. *)
Definition main (fuel : nat) (stdin : list string) (OUT_FILE : option string) : M unit :=
try_except
  (r <- input "Enter your MoodleSession cookie value: " stdin;;
   let (moodle_session, stdin) := (r : string * list string) in
   if negb (PyStr.truthy moodle_session) then
     log ERROR "MoodleSession cookie is required"
   else
     let output_file :=
       match OUT_FILE with Some f => f | None => DEFAULT_OUTPUT_FILE end in
     st <- forum_url_loop fuel moodle_session stdin [];;
     let all_discussions := fst st in
     match all_discussions with
     | [] => log ERROR "No discussions were scraped from any forum"
     | _ :: _ =>
         scraper <- init "" moodle_session;;
         open_and_save scraper all_discussions output_file;;
         log INFO ("Total discussions scraped: "
                   ++ PyStr.str_of_nat (length all_discussions));;
         log INFO ("Total posts scraped: "
                   ++ PyStr.str_of_nat (total_posts all_discussions))
     end)
  (fun e => log ERROR ("An unexpected error occurred: " ++ exn_str e)).

End Methods.

End Scraper.

(** ** Reading the trace and the page

    The part of a trace that tells how the crawl went: the page
    announcements of [scrape_forum], the HTTP requests and the pauses. *)

Definition is_page_log (msg : string) : bool := PyStr.startswith msg "Scraping page ".

Definition crawl_event (e : event) : bool :=
match e with
| Log _ msg => is_page_log msg
| HttpGet _ _ => true
| Sleep _ => true
| Prompt _ => false
| FileWrite _ _ => false
end.

Definition crawl_events (t : list event) : list event := filter crawl_event t.

(** One visit of a discussion, as it shows in the crawl events. *)
Definition visit_events (self : MoodleForumScraper) (discussion_url : string)
  : list event :=
[HttpGet (moodle_session self) discussion_url; Sleep 1].

(** One iteration of [scrape_forum] on page [page] that found [links]. *)
Definition page_events (self : MoodleForumScraper) (page : nat) (links : list string)
  : list event :=
Log INFO ("Scraping page " ++ PyStr.str_of_nat page)
  :: HttpGet (moodle_session self) (index_url self page)
  :: flat_map (visit_events self) links.

(** The required elements of a post container, as the extraction looks them
    up: the content and the header in the container, the title, the author
    link and the timestamp in the header. *)
Definition find_content (c : node) : option node := select_one post_content_selector c.
Definition find_header (c : node) : option node := select_one header_selector c.
Definition find_in_header (sel : selector) (c : node) : option node :=
match find_header c with Some h => select_one sel h | None => None end.
Definition find_title : node -> option node := find_in_header title_selector.
Definition find_author_link : node -> option node := find_in_header author_link_selector.
Definition find_date : node -> option node := find_in_header time_selector.

Definition present {A} (o : option A) : bool :=
match o with Some _ => true | None => false end.

(** The container lacks at least one of the five required elements. *)
Definition missing_required (c : node) : bool :=
negb (present (find_content c) && present (find_header c) && present (find_title c)
      && present (find_author_link c) && present (find_date c)).

(** The post [p] carries the four fields of the container [c], all of whose
    required elements are there. *)
Definition built_from (c : node) (p : ForumPost) : Prop :=
exists post_content title_el author_link date_el,
  find_content c = Some post_content /\
  find_title c = Some title_el /\
  find_author_link c = Some author_link /\
  find_date c = Some date_el /\
  p = {| title := get_text_strip title_el;
         content := get_text_strip post_content;
         author := get_text_strip author_link;
         date := get_default date_el "datetime" "" |}.

(** What the extraction makes of one container, and of a list of them. *)
Definition post_of_container (c : node) : option ForumPost :=
match find_content c, find_title c, find_author_link c, find_date c with
| Some post_content, Some title_el, Some author_link, Some date_el =>
    Some {| title := get_text_strip title_el;
            content := get_text_strip post_content;
            author := get_text_strip author_link;
            date := get_default date_el "datetime" "" |}
| _, _, _, _ => None
end.

Definition posts_of (containers : list node) : list ForumPost :=
flat_map (fun c => match post_of_container c with Some p => [p] | None => [] end)
  containers.

(** ** Reading an exported file back *)

Module Reader.

Definition is_nl (c : ascii) : bool := Ascii.eqb c "010"%char.

(** [text.split('\n')] *)
Fixpoint split_lines (s : string) : list string :=
match s with
| EmptyString => [EmptyString]
| String c s' =>
    if is_nl c then EmptyString :: split_lines s'
    else match split_lines s' with
         | l :: ls => String c l :: ls
         | [] => [String c EmptyString]
         end
end.

Fixpoint no_newline (s : string) : bool :=
match s with
| EmptyString => true
| String c s' => negb (is_nl c) && no_newline s'
end.

(** [line[len(label):]] when [line] starts with [label] *)
Fixpoint strip_prefix (label line : string) : option string :=
match label with
| EmptyString => Some line
| String a label' =>
    match line with
    | EmptyString => None
    | String b line' => if Ascii.eqb a b then strip_prefix label' line' else None
    end
end.

(** The lines before the first rule of forty dashes, and the lines after it. *)
Fixpoint until_rule (lines : list string) : option (list string * list string) :=
match lines with
| [] => None
| l :: ls =>
    if String.eqb l Scraper.rule40 then Some ([], ls)
    else match until_rule ls with
         | Some (body, rest) => Some (l :: body, rest)
         | None => None
         end
end.

Definition read_post (lines : list string) : option (ForumPost * list string) :=
match lines with
| l1 :: l2 :: l3 :: l4 :: rest =>
    match strip_prefix "Title: " l1, strip_prefix "Author: " l2,
          strip_prefix "Date: " l3 with
    | Some t, Some a, Some d =>
        if String.eqb l4 "Content:" then
          match until_rule rest with
          | Some (body, EmptyString :: rest') =>
              match rev body with
              | EmptyString :: rev_content =>
                  Some ({| title := t;
                           content := String.concat nl (rev rev_content);
                           author := a;
                           date := d |}, rest')
              | _ => None
              end
          | _ => None
          end
        else None
    | _, _, _ => None
    end
| _ => None
end.

Fixpoint read_posts (fuel : nat) (lines : list string) : list ForumPost * list string :=
match fuel with
| O => ([], lines)
| S fuel' =>
    match read_post lines with
    | Some (p, rest) =>
        let (ps, rest') := read_posts fuel' rest in (p :: ps, rest')
    | None => ([], lines)
    end
end.

Definition read_header (lines : list string) : option (string * list string) :=
match lines with
| EmptyString :: r1 :: u :: r2 :: EmptyString :: rest =>
    if String.eqb r1 Scraper.rule80 && String.eqb r2 Scraper.rule80 then
      match strip_prefix "Discussion URL: " u with
      | Some url => Some (url, rest)
      | None => None
      end
    else None
| _ => None
end.

Fixpoint read_discussions (fuel : nat) (lines : list string) : option discussions_dict :=
match fuel with
| O => None
| S fuel' =>
    match lines with
    | [EmptyString] => Some []
    | _ =>
        match read_header lines with
        | Some (url, rest) =>
            let (posts, rest') := read_posts fuel' rest in
            match read_discussions fuel' rest' with
            | Some ds => Some ((url, posts) :: ds)
            | None => None
            end
        | None => None
        end
    end
end.

(** Modelled from the spec: the reader of an exported file, which the
    repository does not have.  It follows the layout of the output file, line
    by line: a discussion is announced by an empty line, a rule of eighty
    [=], the [Discussion URL: ] line, a second rule and an empty line; a post
    is its [Title: ], [Author: ] and [Date: ] lines, the [Content:] line, the
    lines of the content, an empty line, a rule of forty [-] and an empty
    line.  The labels are accepted only as [save_to_file] writes them. *)
Definition read_export (text : string) : option discussions_dict :=
let lines := split_lines text in
read_discussions (S (length lines)) lines.

(** A post whose one-line fields hold no line feed and whose content has no
    line made of the forty dashes of the rule. *)
Definition plain_post (p : ForumPost) : bool :=
no_newline (title p) && no_newline (author p) && no_newline (date p)
&& negb (existsb (fun l => String.eqb l Scraper.rule40) (split_lines (content p))).

Definition plain_discussions (d : discussions_dict) : bool :=
forallb (fun kv => no_newline (fst kv) && forallb plain_post (snd kv)) d.

(** The lines of the text written for a post, and for a discussion. *)
Definition post_lines (p : ForumPost) : list string :=
("Title: " ++ title p) :: ("Author: " ++ author p) :: ("Date: " ++ date p)
  :: "Content:" :: app (split_lines (content p)) [EmptyString; Scraper.rule40; EmptyString].

Definition discussion_lines (kv : string * list ForumPost) : list string :=
EmptyString :: Scraper.rule80 :: ("Discussion URL: " ++ fst kv) :: Scraper.rule80
  :: EmptyString :: flat_map post_lines (snd kv).

End Reader.

(** ** A small forum

    Concrete pages, servers and exported mappings on which the properties
    below are exercised.  The forum has two index pages: page 0 lists two
    discussions and page 1 lists none.  The first discussion has three post
    containers: a complete one, one without author link, and one whose
    timestamp has no [datetime] attribute.  Fetching the second discussion
    ends on the login page. *)

Module Demo.

Definition forum : string := "https://moodle.example/mod/forum/view.php?id=7".
Definition discussion_1 : string := "https://moodle.example/mod/forum/discuss.php?d=1".
Definition discussion_2 : string := "https://moodle.example/mod/forum/discuss.php?d=2".
Definition login_page : string := "https://moodle.example/login/index.php".

Definition self : MoodleForumScraper :=
{| base_url := forum; moodle_session := "s3cr3t" |}.

Definition topic_row (href subject : string) : node :=
Tag "tr" [("class", "discussion")]
  [Tag "th" [("class", "topic p-0 align-middle")]
     [Tag "div" [("class", "p-2 d-flex")]
        [Tag "a" [("class", "p-3 p-l-0 w-100 h-100 d-block"); ("href", href)]
           [NavigableString subject]]]].

Definition index_page (rows : list node) : node :=
Tag "[document]" [] [Tag "table" [("class", "discussion-list")] rows].

Definition index_0 : node :=
index_page [topic_row discussion_1 " Welcome "; topic_row discussion_2 "Exam dates"].

Definition index_1 : node := index_page [].

Definition subject_el (subject : string) : node :=
Tag "h3" [("class", "h6"); ("data-region-content", "forum-post-core-subject")]
  [NavigableString subject].

Definition author_el (name : string) : node :=
Tag "a" [("href", "https://moodle.example/user/view.php?id=3&course=7")]
  [NavigableString name].

Definition content_el (body : string) : node :=
Tag "div" [("class", "post-content-container")] [Tag "p" [] [NavigableString body]].

Definition container (header_contents : list node) (body : string) : node :=
Tag "article" [("class", "forum-post-container mb-2")]
  [Tag "header" [("class", "mb-2")] header_contents; content_el body].

Definition complete_container : node :=
container [subject_el "Welcome"; author_el "Ann";
           Tag "time" [("datetime", "2024-03-01T10:00:00+00:00")]
             [NavigableString "1 March 2024"]]
  " Hello everybody. ".

Definition container_without_author : node :=
container [subject_el "Re: Welcome";
           Tag "time" [("datetime", "2024-03-01T11:00:00+00:00")]
             [NavigableString "1 March 2024"]]
  "Hi.".

Definition container_without_datetime : node :=
container [subject_el "Re: Welcome"; author_el "Bob";
           Tag "time" [] [NavigableString "yesterday"]]
  "Thanks!".

Definition discussion_page : node :=
Tag "[document]" []
  [complete_container; container_without_author; container_without_datetime].

Definition first_post : ForumPost :=
{| title := "Welcome"; content := "Hello everybody."; author := "Ann";
   date := "2024-03-01T10:00:00+00:00" |}.

Definition third_post : ForumPost :=
{| title := "Re: Welcome"; content := "Thanks!"; author := "Bob"; date := "" |}.

(** The bodies served, and the trees the parser makes of them. *)
Definition parse (body : string) : exn + node :=
if String.eqb body "index 0" then inr index_0
else if String.eqb body "index 1" then inr index_1
else if String.eqb body "discussion 1" then inr discussion_page
else inr (Tag "[document]" [] [NavigableString body]).

(** [urljoin] on the links of these pages, which are absolute: the link
    itself, or the base when there is no link. *)
Definition urljoin (base : string) (href : option string) : exn + option string :=
match href with
| Some h => inr (Some (if PyStr.truthy h then h else base))
| None => inr (if PyStr.truthy base then Some base else None)
end.

Definition ok (url body : string) : exn + Response :=
inr {| status_code := 200; reason := "OK"; resp_url := url; resp_text := body |}.

Definition not_found (url : string) : exn + Response :=
inr {| status_code := 404; reason := "Not Found"; resp_url := url; resp_text := "" |}.

(** A server that answers the same to the same request. *)
Definition static_get (cookie url : string) (s : unit) : (exn + Response) * unit :=
(if String.eqb url (forum ++ "&page=0") then ok url "index 0"
 else if String.eqb url (forum ++ "&page=1") then ok url "index 1"
 else if String.eqb url discussion_1 then ok url "discussion 1"
 else if String.eqb url discussion_2 then ok login_page "login form"
 else not_found url, s).

Definition start : Py.World unit := {| server := tt; trace := [] |}.

(** A server whose session expires once the first discussion has been
    served: its index page 0 lists that discussion twice. *)
Definition index_twice : node :=
index_page [topic_row discussion_1 "Welcome"; topic_row discussion_1 "Welcome"].

Definition parse_twice (body : string) : exn + node :=
if String.eqb body "index 0" then inr index_twice else parse body.

Definition expiring_get (cookie url : string) (expired : bool)
  : (exn + Response) * bool :=
if expired then (ok login_page "login form", true)
else if String.eqb url (forum ++ "&page=0") then (ok url "index 0", false)
else if String.eqb url discussion_1 then (ok url "discussion 1", true)
else (not_found url, false).

Definition fresh_session : Py.World bool := {| server := false; trace := [] |}.

(** Two mappings with the same exported text: in the first the content of
    the only post holds the rule of forty dashes and what looks like a second
    post; in the second there are two posts. *)
Definition merged_post : ForumPost :=
{| title := "A";
   content := "one" ++ nl ++ nl ++ Scraper.rule40 ++ nl ++ nl
              ++ "Title: B" ++ nl ++ "Author: bob" ++ nl ++ "Date: d2" ++ nl
              ++ "Content:" ++ nl ++ "two";
   author := "ann"; date := "d1" |}.

Definition merged : discussions_dict := [(discussion_1, [merged_post])].

Definition split : discussions_dict :=
[(discussion_1,
  [{| title := "A"; content := "one"; author := "ann"; date := "d1" |};
   {| title := "B"; content := "two"; author := "bob"; date := "d2" |}])].

(** A mapping that reads back: one post has a content of two lines. *)
Definition exported : discussions_dict :=
[(discussion_1, [first_post; {| title := "Re: Welcome"; content := "Thanks!" ++ nl ++ "Bob";
                                author := "Bob"; date := "" |}]);
 (discussion_2, [])].

(** The output directory of an installation, and [pathlib]'s join of it with
    a file name: the empty name gives the directory itself. *)
Definition output_dir : string := "/opt/scraper/outputdata".

Definition path_join (dir file : string) : string :=
if PyStr.truthy file then dir ++ "/" ++ file else dir.

(** A file system in which any file may be written but a directory cannot
    be opened as one. *)
Definition open_error (path : string) : option exn :=
if String.eqb path output_dir
then Some (Exception ("[Errno 21] Is a directory: '" ++ output_dir ++ "'"))
else None.

End Demo.

(** ** More vocabulary for mappings and traces *)

(** The keys of a mapping, in insertion order. *)
Definition keys (d : discussions_dict) : list string := map fst d.

(** A mapping with no URL twice and no empty list of posts. *)
Definition well_formed (d : discussions_dict) : Prop :=
NoDup (keys d) /\ Forall (fun kv => snd kv <> []) d.

Definition is_file_write (e : event) : bool :=
match e with FileWrite _ _ => true | _ => false end.

(** The file writes of a trace, in order. *)
Definition file_writes (t : list event) : list event := filter is_file_write t.

(** The discussion links made of a list of anchors when [urljoin] raises on
    none of them: the non-empty joins, in the order of the anchors. *)
Definition joined_links (urljoin : string -> option string -> exn + option string)
  (base : string) (anchors : list node) : list string :=
flat_map (fun a =>
            match urljoin base (get a "href") with
            | inr (Some u) => if PyStr.truthy u then [u] else []
            | _ => []
            end) anchors.

(** [s] does not start with a white space character. *)
Definition starts_clean (s : string) : Prop :=
match s with
| EmptyString => True
| String c _ => PyStr.is_space c = false
end.

(** [s] neither starts nor ends with a white space character. *)
Definition trimmed (s : string) : Prop := PyStr.strip s = s.

(** What a crawl run by the scraper [self] may add to the trace: log records,
    requests made with its session cookie, and pauses of one second. *)
Definition crawl_step (self : MoodleForumScraper) (e : event) : bool :=
match e with
| Log _ _ => true
| HttpGet cookie _ => String.eqb cookie (moodle_session self)
| Sleep n => Nat.eqb n 1
| Prompt _ => false
| FileWrite _ _ => false
end.

(** The trace [t'] is [t] followed by events that all satisfy [allowed]. *)
Definition extended_by (allowed : event -> bool) (t t' : list event) : Prop :=
exists evs, t' = (t ++ evs)%list /\ forallb allowed evs = true.

(** The URLs requested in a trace, in order. *)
Definition requested (t : list event) : list string :=
flat_map (fun e => match e with HttpGet _ u => [u] | _ => [] end) t.

(** ** A forum with a broken link

    The only index page has one discussion link, to an address on which
    [urljoin] raises; and a session that has expired before the crawl. *)

Module Broken.

Definition bad_href : string := "http://[::1/discuss.php?d=1".

Definition index : node := Demo.index_page [Demo.topic_row bad_href "Broken"].

Definition parse (body : string) : exn + node := inr index.

(** [urljoin] raising [ValueError] on the bracket that is not closed. *)
Definition urljoin (base : string) (href : option string) : exn + option string :=
match href with
| Some h =>
    if PyStr.contains "[" h && negb (PyStr.contains "]" h)
    then inl (Exception "Invalid IPv6 URL")
    else Demo.urljoin base href
| None => Demo.urljoin base href
end.

Definition expired : Py.World bool := {| server := true; trace := [] |}.

End Broken.

(** * Properties *)

Section Properties.

Variable Server : Type.
Variable http_get : string -> string -> Server -> (exn + Response) * Server.
Variable BeautifulSoup : string -> exn + node.
Variable urljoin : string -> option string -> exn + option string.
Variable OUTPUT_DIR : string.
Variable path_join : string -> string -> string.

Local Abbreviation M := (Py.M Server).
Local Abbreviation World := (Py.World Server).
Local Abbreviation get_page_content := (Scraper.get_page_content Server http_get BeautifulSoup).
Local Abbreviation get_discussion_links := (Scraper.get_discussion_links Server urljoin).
Local Abbreviation discussion_links_loop := (Scraper.discussion_links_loop Server urljoin).
Local Abbreviation extract_post := (Scraper.extract_post Server).
Local Abbreviation posts_loop := (Scraper.posts_loop Server).
Local Abbreviation extract_posts_from_discussion :=
  (Scraper.extract_posts_from_discussion Server http_get BeautifulSoup).
Local Abbreviation visit_discussions := (Scraper.visit_discussions Server http_get BeautifulSoup).
Local Abbreviation scrape_loop := (Scraper.scrape_loop Server http_get BeautifulSoup urljoin).
Local Abbreviation scrape_forum := (Scraper.scrape_forum Server http_get BeautifulSoup urljoin).
Local Abbreviation fetch_case := (Scraper.fetch_case Server http_get BeautifulSoup).
Local Abbreviation extracts := (Scraper.extracts Server).
Local Abbreviation record_posts := Scraper.record_posts.
Local Abbreviation forum_url_prompt := Scraper.forum_url_prompt.
Local Abbreviation invalid_url_message := Scraper.invalid_url_message.
Local Abbreviation valid_forum_url := Scraper.valid_forum_url.
Local Abbreviation nonempty_index_page :=
  (Scraper.nonempty_index_page Server http_get BeautifulSoup urljoin).
Local Abbreviation empty_index_page :=
  (Scraper.empty_index_page Server http_get BeautifulSoup).
Local Abbreviation fetch_failure := (Scraper.fetch_failure Server http_get).
Local Abbreviation save_to_file := (Scraper.save_to_file Server OUTPUT_DIR path_join).
Local Abbreviation output_path := (Scraper.output_path OUTPUT_DIR path_join).
Local Abbreviation forum_url_loop :=
  (Scraper.forum_url_loop Server http_get BeautifulSoup urljoin).

Lemma log_run (lvl : level) (msg : string) (w : World) :
  log lvl msg w = (Ret tt, after w (Log lvl msg)).
Proof. reflexivity. Qed.

Lemma bind_run {A B} (m : M A) (k : A -> M B) (w w' : World) (a : A) :
  m w = (Ret a, w') -> bind m k w = k a w'.
Proof. intros H. unfold bind. rewrite H. reflexivity. Qed.

Ltac unfold_py :=
  unfold bind, try_except, log, sleep, emit, call, ret, raise, out_of_fuel in *.

(** ** [get_page_content] *)

Lemma get_page_content_cases (self : MoodleForumScraper) (url : string) (w : World) :
  exists v w', get_page_content self url w = (Ret v, w') /\ fetch_case self url w v.
Proof.
  unfold Scraper.get_page_content, Scraper.session_get, Scraper.raise_for_status.
  unfold_py. simpl.
  destruct (http_get (moodle_session self) url (server w)) as [[e | r] s'] eqn:Hget.
  - destruct e; simpl; eexists; eexists; (split; [reflexivity | eapply Scraper.fetch_raised; eauto]).
  - destruct (is_http_error (status_code r)) eqn:Hst; simpl.
    + eexists; eexists; (split; [reflexivity | eapply Scraper.fetch_http_error; eauto]).
    + destruct (is_login_url (resp_url r)) eqn:Hlogin; simpl.
      * eexists; eexists; (split; [reflexivity | eapply Scraper.fetch_login; eauto]).
      * destruct (BeautifulSoup (resp_text r)) as [e | soup] eqn:Hparse; simpl.
        -- destruct e; simpl; eexists; eexists;
             (split; [reflexivity | eapply Scraper.fetch_unparsed; eauto]).
        -- eexists; eexists; (split; [reflexivity | eapply Scraper.fetch_parsed; eauto]).
Qed.

Lemma crawl_events_app (t1 t2 : list event) :
  crawl_events (t1 ++ t2) = (crawl_events t1 ++ crawl_events t2)%list.
Proof. apply filter_app. Qed.

(** Rewrites the crawl events of a trace built by appending events. *)
Ltac crawl_simpl :=
  simpl trace; rewrite ?crawl_events_app; simpl;
  rewrite ?app_nil_r, <- ?app_assoc; simpl.

Lemma get_page_content_crawl (self : MoodleForumScraper) (url : string) (w : World) :
  exists v w', get_page_content self url w = (Ret v, w') /\
    crawl_events (trace w')
    = (crawl_events (trace w) ++ [HttpGet (moodle_session self) url])%list.
Proof.
  unfold Scraper.get_page_content, Scraper.session_get, Scraper.raise_for_status.
  unfold_py. simpl.
  destruct (http_get (moodle_session self) url (server w)) as [[e | r] s'] eqn:Hget.
  - destruct e; simpl; eexists; eexists; (split; [reflexivity | crawl_simpl; reflexivity]).
  - destruct (is_http_error (status_code r)) eqn:Hst; simpl.
    + eexists; eexists; (split; [reflexivity | crawl_simpl; reflexivity]).
    + destruct (is_login_url (resp_url r)) eqn:Hlogin; simpl.
      * eexists; eexists; (split; [reflexivity | crawl_simpl; reflexivity]).
      * destruct (BeautifulSoup (resp_text r)) as [e | soup] eqn:Hparse; simpl.
        -- destruct e; simpl; eexists; eexists;
             (split; [reflexivity | crawl_simpl; reflexivity]).
        -- eexists; eexists; (split; [reflexivity | crawl_simpl; reflexivity]).
Qed.

(** ** [extract_posts_from_discussion] *)

Lemma post_of_container_built (c : node) (p : ForumPost) :
  post_of_container c = Some p <-> built_from c p.
Proof.
  unfold post_of_container, built_from. split.
  - destruct (find_content c) as [pc|]; [|discriminate].
    destruct (find_title c) as [t|]; [|discriminate].
    destruct (find_author_link c) as [a|]; [|discriminate].
    destruct (find_date c) as [d|]; [|discriminate].
    intros H. injection H as <-. exists pc, t, a, d. auto.
  - intros (pc & t & a & d & -> & -> & -> & -> & ->). reflexivity.
Qed.

Lemma post_of_container_missing (c : node) :
  post_of_container c = None <-> missing_required c = true.
Proof.
  unfold post_of_container, missing_required, find_title, find_author_link,
    find_date, find_in_header.
  destruct (find_content c); destruct (find_header c) as [h|]; simpl;
    try (split; [reflexivity | intros _; reflexivity]).
  - destruct (select_one title_selector h); destruct (select_one author_link_selector h);
      destruct (select_one time_selector h); simpl;
      split; congruence.
Qed.

Lemma extract_post_run (c : node) (posts : list ForumPost) (w : World) :
  exists w',
    extract_post c posts w
    = (Ret (posts ++ match post_of_container c with Some p => [p] | None => [] end)%list, w')
    /\ server w' = server w
    /\ crawl_events (trace w') = crawl_events (trace w).
Proof.
  unfold Scraper.extract_post, post_of_container, find_title, find_author_link,
    find_date, find_in_header, find_content, find_header.
  destruct (select_one post_content_selector c) as [pc|];
    destruct (select_one header_selector c) as [h|];
    try (exists w; rewrite app_nil_r; repeat split; reflexivity).
  destruct (select_one title_selector h) as [t|];
    destruct (select_one author_link_selector h) as [a|];
    destruct (select_one time_selector h) as [d|];
    unfold_py; simpl;
    eexists; (split; [rewrite ?app_nil_r; reflexivity
                     | split; [reflexivity | crawl_simpl; reflexivity]]).
Qed.

Lemma posts_loop_run (l : list node) : forall (posts : list ForumPost) (w : World),
  exists w',
    posts_loop l posts w = (Ret (posts ++ posts_of l)%list, w')
    /\ server w' = server w
    /\ crawl_events (trace w') = crawl_events (trace w).
Proof.
  induction l as [|c l IH]; intros posts w; simpl.
  - exists w. rewrite app_nil_r. repeat split; reflexivity.
  - destruct (extract_post_run c posts w) as (w1 & H1 & Hs1 & Ht1).
    destruct (IH (posts ++ match post_of_container c with Some p => [p] | None => [] end)%list w1)
      as (w2 & H2 & Hs2 & Ht2).
    exists w2. unfold bind, try_except. rewrite H1. rewrite H2.
    rewrite <- app_assoc. repeat split; congruence.
Qed.

Lemma extract_posts_run (self : MoodleForumScraper) (url : string) (w : World) :
  exists v w1 w',
    get_page_content self url w = (Ret v, w1)
    /\ extract_posts_from_discussion self url w
       = (Ret match v with
              | Some soup => posts_of (select post_container_selector soup)
              | None => []
              end, w')
    /\ crawl_events (trace w')
       = (crawl_events (trace w) ++ [HttpGet (moodle_session self) url])%list.
Proof.
  destruct (get_page_content_crawl self url w) as (v & w1 & Hget & Ht).
  unfold Scraper.extract_posts_from_discussion, bind. rewrite Hget.
  destruct v as [soup|].
  - destruct (posts_loop_run (select post_container_selector soup) [] w1)
      as (w' & Hl & _ & Ht').
    exists (Some soup), w1, w'. simpl in Hl. rewrite Hl.
    repeat split; congruence.
  - exists None, w1, w1. repeat split; assumption.
Qed.

Lemma extracts_posts_of (l : list node) : extracts l (posts_of l).
Proof.
  intros w. destruct (posts_loop_run l [] w) as (w' & H & _). exists w'. exact H.
Qed.

Lemma posts_of_app (l1 l2 : list node) :
  posts_of (l1 ++ l2) = (posts_of l1 ++ posts_of l2)%list.
Proof. apply flat_map_app. Qed.

Lemma posts_of_length (l : list node) :
  length (posts_of l) + length (filter missing_required l) = length l.
Proof.
  induction l as [|c l IH]; simpl; [reflexivity|].
  destruct (post_of_container c) as [p|] eqn:Hc.
  - destruct (missing_required c) eqn:Hm.
    + apply post_of_container_missing in Hm. congruence.
    + simpl. lia.
  - apply post_of_container_missing in Hc. rewrite Hc. simpl. lia.
Qed.

Lemma posts_of_in (l : list node) (p : ForumPost) :
  In p (posts_of l) -> exists c, In c l /\ built_from c p.
Proof.
  unfold posts_of. rewrite in_flat_map. intros (c & Hc & Hp).
  exists c. split; [assumption|].
  apply post_of_container_built.
  destruct (post_of_container c) as [q|]; simpl in Hp.
  - destruct Hp as [->|[]]. reflexivity.
  - contradiction.
Qed.

(** C1. A container that lacks one of the required elements (content,
    header, title, author link, timestamp) contributes nothing to the result
    of [extract_posts_from_discussion]: the result has one post less per such
    container, it is what the containers before it yield followed by what
    the containers after it yield, and every post in it carries the four
    fields of a container that has all its elements. *)
Theorem extract_posts_skips_incomplete
  (self : MoodleForumScraper) (url : string) (w w1 : World) (soup : node) :
  get_page_content self url w = (Ret (Some soup), w1) ->
  exists posts w',
    extract_posts_from_discussion self url w = (Ret posts, w') /\
    length posts
      + length (filter missing_required (select post_container_selector soup))
      = length (select post_container_selector soup) /\
    (forall p, In p posts ->
       exists c, In c (select post_container_selector soup) /\ built_from c p) /\
    (forall before c after_,
       select post_container_selector soup = (before ++ c :: after_)%list ->
       missing_required c = true ->
       exists p1 p2,
         posts = (p1 ++ p2)%list /\ extracts before p1 /\ extracts after_ p2).
Proof.
  intros Hget.
  destruct (extract_posts_run self url w) as (v & w1' & w' & Hget' & Hrun & _).
  rewrite Hget in Hget'. injection Hget' as <- <-.
  exists (posts_of (select post_container_selector soup)), w'.
  split; [exact Hrun|]. split; [apply posts_of_length|].
  split; [apply posts_of_in|].
  intros before c after_ Hsel Hmiss. rewrite Hsel.
  exists (posts_of before), (posts_of after_).
  split; [|split; apply extracts_posts_of].
  rewrite posts_of_app. simpl.
  apply post_of_container_missing in Hmiss. rewrite Hmiss. reflexivity.
Qed.

(** C5. A container whose timestamp element has no [datetime] attribute
    still yields a post, with the empty string as its date; a container with
    no timestamp element yields no post. *)
Theorem date_defaults_to_empty_string
  (self : MoodleForumScraper) (url : string) (w w1 : World) (soup : node)
  (before after_ : list node) (c : node) :
  get_page_content self url w = (Ret (Some soup), w1) ->
  select post_container_selector soup = (before ++ c :: after_)%list ->
  exists p1 p2,
    extracts before p1 /\ extracts after_ p2 /\
    (forall post_content title_el author_link date_el,
       find_content c = Some post_content ->
       find_title c = Some title_el ->
       find_author_link c = Some author_link ->
       find_date c = Some date_el ->
       get date_el "datetime" = None ->
       exists w',
         extract_posts_from_discussion self url w
         = (Ret (p1 ++ {| title := get_text_strip title_el;
                          content := get_text_strip post_content;
                          author := get_text_strip author_link;
                          date := "" |} :: p2)%list, w')) /\
    (find_date c = None ->
     exists w', extract_posts_from_discussion self url w = (Ret (p1 ++ p2)%list, w')).
Proof.
  intros Hget Hsel.
  destruct (extract_posts_run self url w) as (v & w1' & w' & Hget' & Hrun & _).
  rewrite Hget in Hget'. injection Hget' as <- <-.
  rewrite Hsel, posts_of_app in Hrun. simpl in Hrun.
  exists (posts_of before), (posts_of after_).
  split; [apply extracts_posts_of|]. split; [apply extracts_posts_of|]. split.
  - intros pc t a d Hc Ht Ha Hd Hattr. exists w'. rewrite Hrun.
    unfold post_of_container. rewrite Hc, Ht, Ha, Hd.
    unfold get_default. rewrite Hattr. reflexivity.
  - intros Hd. exists w'. rewrite Hrun.
    unfold post_of_container. rewrite Hd.
    destruct (find_content c); destruct (find_title c);
      destruct (find_author_link c); reflexivity.
Qed.

(** ** Failures of a fetch *)

(** C9. Whatever the URL and whatever the request does (it raises, it
    answers with an error status, it ends on a login page, the body cannot
    be parsed, or all goes well), [get_page_content] returns a parsed page or
    [None]: it raises nothing and always comes back. *)
Theorem get_page_content_total
  (self : MoodleForumScraper) (url : string) (w : World) :
  exists v w', get_page_content self url w = (Ret v, w') /\ fetch_case self url w v.
Proof. apply get_page_content_cases. Qed.

(** C8. A fetch that ends on a login page returns [None], and so does a
    fetch whose request raised and a fetch answered with an HTTP error
    status: the caller gets the same value in the three cases. *)
Theorem login_redirect_fails_like_other_failures
  (self : MoodleForumScraper) (url : string) (w : World) :
  fetch_failure self url w ->
  exists w', get_page_content self url w = (Ret None, w').
Proof.
  intros Hfail.
  destruct (get_page_content_cases self url w) as (v & w' & Hrun & Hcase).
  exists w'. rewrite Hrun. f_equal. f_equal.
  destruct Hcase as [e s H | r s H Hst | r s H Hl | r s e H Hp | r s soup H Hst Hl Hp];
    try reflexivity.
  destruct Hfail as [e' s2 H' | r' s2 H' Hst' | r' s2 H' Hl'];
    rewrite H in H'; try discriminate; injection H' as <- <-; congruence.
Qed.

(** ** [get_discussion_links] *)

Lemma discussion_links_loop_run (self : MoodleForumScraper) (l : list node) :
  forall (acc : list string) (w : World),
  exists r w',
    discussion_links_loop self l acc w = (r, w')
    /\ r <> OutOfFuel
    /\ server w' = server w
    /\ crawl_events (trace w') = crawl_events (trace w).
Proof.
  induction l as [|link l IH]; intros acc w; cbn [Scraper.discussion_links_loop].
  - exists (Ret acc), w. repeat split; congruence.
  - unfold bind at 1.
    destruct (urljoin (base_url self) (get link "href")) as [e | [u|]].
    + exists (Raise e), w. repeat split; congruence.
    + unfold call, ret. destruct (PyStr.truthy u).
      * unfold bind. rewrite log_run.
        destruct (IH (acc ++ [u])%list
                     (after w (Log INFO ("Found discussion: "
                                          ++ PyStr.strip (text link) ++ " - " ++ u))))
          as (r & w' & H & Hr & Hs & Ht).
        exists r, w'. rewrite H. repeat split; try assumption.
        rewrite Ht. crawl_simpl. reflexivity.
      * apply IH.
    + apply IH.
Qed.

Lemma discussion_links_loop_pure (base ms1 ms2 : string) (l : list node) :
  forall (acc : list string) (w1 w2 : World),
    fst (discussion_links_loop {| base_url := base; moodle_session := ms1 |} l acc w1)
    = fst (discussion_links_loop {| base_url := base; moodle_session := ms2 |} l acc w2).
Proof.
  induction l as [|link l IH]; intros acc w1 w2;
    cbn [Scraper.discussion_links_loop base_url]; [reflexivity|].
  unfold bind at 1 3.
  destruct (urljoin base (get link "href")) as [e | [u|]].
  - reflexivity.
  - unfold call, ret. destruct (PyStr.truthy u).
    + unfold bind. rewrite !log_run. apply IH.
    + apply IH.
  - apply IH.
Qed.

(** C7. [get_discussion_links] is a function of the page and of the base
    URL alone: the session and the state of the world have no part in its
    result, it leaves the server as it found it, and a second call on
    the same page, right after the first, gives the same result. *)
Theorem get_discussion_links_pure
  (base ms1 ms2 : string) (soup : node) (w1 w2 : World) :
  let self := {| base_url := base; moodle_session := ms1 |} in
  fst (get_discussion_links self soup w1)
  = fst (get_discussion_links {| base_url := base; moodle_session := ms2 |} soup w2)
  /\ server (snd (get_discussion_links self soup w1)) = server w1
  /\ fst (get_discussion_links self soup (snd (get_discussion_links self soup w1)))
     = fst (get_discussion_links self soup w1).
Proof.
  unfold Scraper.get_discussion_links. split; [|split].
  - apply discussion_links_loop_pure.
  - destruct (discussion_links_loop_run {| base_url := base; moodle_session := ms1 |}
                (select discussion_link_selector soup) [] w1)
      as (r & w' & H & _ & Hs & _).
    rewrite H. exact Hs.
  - apply discussion_links_loop_pure.
Qed.

Lemma get_discussion_links_none (self : MoodleForumScraper) (soup : node) (w : World) :
  select discussion_link_selector soup = [] ->
  get_discussion_links self soup w = (Ret [], w).
Proof.
  intros Hsel. unfold Scraper.get_discussion_links. rewrite Hsel. reflexivity.
Qed.

Lemma scrape_loop_stop (self : MoodleForumScraper) (soup : node) (fuel page : nat)
  (m : discussions_dict) (w w1 : World) :
  select discussion_link_selector soup = [] ->
  get_page_content self (index_url self page)
    (after w (Log INFO ("Scraping page " ++ PyStr.str_of_nat page)))
  = (Ret (Some soup), w1) ->
  scrape_loop (S fuel) self page m w = (Ret (m, page), w1).
Proof.
  intros Hsel Hget. cbn [Scraper.scrape_loop].
  unfold bind at 1. rewrite log_run.
  unfold bind at 1. rewrite Hget.
  unfold bind. rewrite (get_discussion_links_none self soup w1 Hsel). reflexivity.
Qed.

(** C3. On a page where nothing matches the discussion link selector,
    [get_discussion_links] returns the empty list, raising nothing and
    touching nothing; [scrape_forum], on fetching such an index page, ends
    its loop there and returns the discussions gathered so far, with no
    further log record; and so it does whenever the list of links it gets
    for an index page is empty. *)
Theorem no_links_ends_pagination
  (self : MoodleForumScraper) (soup : node) :
  select discussion_link_selector soup = [] ->
  (forall w, get_discussion_links self soup w = (Ret [], w)) /\
  (forall fuel page all_discussions w w1,
     get_page_content self (index_url self page)
       (after w (Log INFO ("Scraping page " ++ PyStr.str_of_nat page)))
     = (Ret (Some soup), w1) ->
     scrape_loop (S fuel) self page all_discussions w
     = (Ret (all_discussions, page), w1)) /\
  (forall fuel page all_discussions w w1 w2 any_soup,
     get_page_content self (index_url self page)
       (after w (Log INFO ("Scraping page " ++ PyStr.str_of_nat page)))
     = (Ret (Some any_soup), w1) ->
     get_discussion_links self any_soup w1 = (Ret [], w2) ->
     scrape_loop (S fuel) self page all_discussions w
     = (Ret (all_discussions, page), w2)).
Proof.
  intros Hsel. split; [|split].
  - intros w. apply get_discussion_links_none. exact Hsel.
  - intros fuel page m w w1 Hget. eapply scrape_loop_stop; eauto.
  - intros fuel page m w w1 w2 any_soup Hget Hlinks. cbn [Scraper.scrape_loop].
    unfold bind at 1. rewrite log_run.
    unfold bind at 1. rewrite Hget.
    unfold bind. rewrite Hlinks. reflexivity.
Qed.

(** ** [scrape_forum] *)

Lemma sleep_run (n : nat) (w : World) : sleep n w = (Ret tt, after w (Sleep n)).
Proof. reflexivity. Qed.

Lemma visit_discussions_cons (self : MoodleForumScraper) (u : string)
  (rest : list string) (m : discussions_dict) (w w3 : World) (posts : list ForumPost) :
  extract_posts_from_discussion self u
    (after w (Log INFO ("Scraping discussion: " ++ u))) = (Ret posts, w3) ->
  visit_discussions self (u :: rest) m w
  = visit_discussions self rest (record_posts u posts m) (after w3 (Sleep 1)).
Proof.
  intros Hx. cbn [Scraper.visit_discussions].
  unfold bind at 1. rewrite log_run.
  unfold bind at 1. rewrite Hx.
  unfold bind at 1. rewrite sleep_run. reflexivity.
Qed.

Lemma visit_discussions_run (self : MoodleForumScraper) (links : list string) :
  forall (m : discussions_dict) (w : World),
  exists m' w',
    visit_discussions self links m w = (Ret m', w')
    /\ crawl_events (trace w')
       = (crawl_events (trace w) ++ flat_map (visit_events self) links)%list.
Proof.
  induction links as [|u rest IH]; intros m w.
  - exists m, w. simpl. rewrite app_nil_r. split; reflexivity.
  - destruct (extract_posts_run self u (after w (Log INFO ("Scraping discussion: " ++ u))))
      as (v & w1 & w3 & _ & Hx & Ht).
    rewrite (visit_discussions_cons self u rest m w w3 _ Hx).
    destruct (IH (record_posts u
                    match v with
                    | Some soup => posts_of (select post_container_selector soup)
                    | None => []
                    end m) (after w3 (Sleep 1))) as (m' & w' & Hv & Ht').
    exists m', w'. split; [exact Hv|].
    rewrite Ht'. crawl_simpl. rewrite Ht. crawl_simpl. reflexivity.
Qed.

Lemma visit_discussions_app (self : MoodleForumScraper) (l1 l2 : list string) :
  forall (m m1 : discussions_dict) (w w1 : World),
    visit_discussions self l1 m w = (Ret m1, w1) ->
    visit_discussions self (l1 ++ l2) m w = visit_discussions self l2 m1 w1.
Proof.
  induction l1 as [|u l1 IH]; intros m m1 w w1 H.
  - simpl in H. injection H as <- <-. reflexivity.
  - destruct (extract_posts_run self u (after w (Log INFO ("Scraping discussion: " ++ u))))
      as (v & w2 & w3 & _ & Hx & _).
    rewrite (visit_discussions_cons self u l1 m w w3 _ Hx) in H.
    rewrite <- app_comm_cons.
    rewrite (visit_discussions_cons self u (l1 ++ l2) m w w3 _ Hx).
    apply IH. exact H.
Qed.

Lemma dict_get_set (k : string) (v : list ForumPost) (d : discussions_dict) :
  dict_get k (dict_set k v d) = Some v.
Proof.
  induction d as [|[k' v'] d IH]; simpl.
  - rewrite String.eqb_refl. reflexivity.
  - destruct (String.eqb k k') eqn:E; simpl; rewrite E; [reflexivity | exact IH].
Qed.

Lemma dict_get_set_other (k k' : string) (v : list ForumPost) (d : discussions_dict) :
  k <> k' -> dict_get k' (dict_set k v d) = dict_get k' d.
Proof.
  intros Hne. induction d as [|[k0 v0] d IH]; simpl.
  - destruct (String.eqb k' k) eqn:E; [|reflexivity].
    apply String.eqb_eq in E. congruence.
  - destruct (String.eqb k k0) eqn:E; simpl.
    + apply String.eqb_eq in E. subst k0.
      destruct (String.eqb k' k) eqn:E'; [|reflexivity].
      apply String.eqb_eq in E'. congruence.
    + rewrite IH. reflexivity.
Qed.

Lemma keys_dict_set_order (k : string) (v : list ForumPost) (d : discussions_dict) :
  keys (dict_set k v d) = if mem k (keys d) then keys d else (keys d ++ [k])%list.
Proof.
  unfold keys, mem. induction d as [|[k0 v0] d IH]; [reflexivity|].
  cbn [dict_set map fst existsb].
  destruct (String.eqb k k0) eqn:E; cbn [map fst orb]; [reflexivity|].
  rewrite IH. destruct (existsb (String.eqb k) (map fst d)); reflexivity.
Qed.

Lemma record_posts_other (u k : string) (posts : list ForumPost) (m : discussions_dict) :
  k <> u -> dict_get k (record_posts u posts m) = dict_get k m.
Proof.
  intros Hne. destruct posts as [|p ps]; [reflexivity|].
  apply dict_get_set_other. congruence.
Qed.

(** A visit changes no entry but that of the link visited. *)
Lemma visit_discussions_frame (self : MoodleForumScraper) (links : list string) :
  forall (m m' : discussions_dict) (w w' : World),
    visit_discussions self links m w = (Ret m', w') ->
    forall k, ~ In k links -> dict_get k m' = dict_get k m.
Proof.
  induction links as [|u rest IH]; intros m m' w w' H k Hk.
  - simpl in H. injection H as <- <-. reflexivity.
  - destruct (extract_posts_run self u (after w (Log INFO ("Scraping discussion: " ++ u))))
      as (v & w2 & w3 & _ & Hx & _).
    rewrite (visit_discussions_cons self u rest m w w3 _ Hx) in H.
    rewrite (IH _ _ _ _ H k).
    + apply record_posts_other. intros ->. apply Hk. left. reflexivity.
    + intros Hin. apply Hk. right. exact Hin.
Qed.

Lemma scrape_loop_next (self : MoodleForumScraper) (fuel page : nat)
  (m m' : discussions_dict) (w0 wa w w' : World) (soup : node) (links : list string) :
  get_page_content self (index_url self page)
    (after w0 (Log INFO ("Scraping page " ++ PyStr.str_of_nat page)))
  = (Ret (Some soup), wa) ->
  get_discussion_links self soup wa = (Ret links, w) ->
  links <> [] ->
  visit_discussions self links m w = (Ret m', w') ->
  scrape_loop (S fuel) self page m w0 = scrape_loop fuel self (page + 1) m' w'.
Proof.
  intros Hget Hlinks Hne Hvisit. cbn [Scraper.scrape_loop].
  unfold bind at 1. rewrite log_run.
  unfold bind at 1. rewrite Hget.
  unfold bind at 1. rewrite Hlinks.
  destruct links as [|u rest]; [congruence|].
  unfold bind at 1. rewrite Hvisit. reflexivity.
Qed.

(** C6 (amended). The discussion links found on an index page are visited
    in order.  For the link [u] at any position: the visit takes place after
    the links before it, which have changed no entry but their own; its
    posts are recorded under [u] when there are some, and the mapping is left
    as it was when there are none, which is the case when the fetch fails;
    in either case every entry under another URL is kept, and so is the
    order of the URLs, a new one coming last; a pause of one second follows
    whatever the outcome; then the links after it are visited, which again
    change no entry but their own, and the crawl goes on to the next index
    page with the mapping so obtained. *)
Theorem visits_record_nonempty_and_continue
  (self : MoodleForumScraper) (fuel page : nat) (all_discussions : discussions_dict)
  (w0 wa w : World) (soup : node) (before after_ : list string) (u : string) :
  get_page_content self (index_url self page)
    (after w0 (Log INFO ("Scraping page " ++ PyStr.str_of_nat page)))
  = (Ret (Some soup), wa) ->
  get_discussion_links self soup wa = (Ret (before ++ u :: after_)%list, w) ->
  exists m1 w1 v w2 w3 m' w',
    let posts := match v with
                 | Some page_soup => posts_of (select post_container_selector page_soup)
                 | None => []
                 end in
    visit_discussions self before all_discussions w = (Ret m1, w1) /\
    (forall k, ~ In k before -> dict_get k m1 = dict_get k all_discussions) /\
    get_page_content self u (after w1 (Log INFO ("Scraping discussion: " ++ u)))
    = (Ret v, w2) /\
    extract_posts_from_discussion self u
      (after w1 (Log INFO ("Scraping discussion: " ++ u))) = (Ret posts, w3) /\
    (v = None -> record_posts u posts m1 = m1) /\
    (posts = [] -> record_posts u posts m1 = m1) /\
    (posts <> [] -> dict_get u (record_posts u posts m1) = Some posts) /\
    (forall k, k <> u -> dict_get k (record_posts u posts m1) = dict_get k m1) /\
    keys (record_posts u posts m1)
    = match posts with
      | [] => keys m1
      | _ :: _ => if mem u (keys m1) then keys m1 else (keys m1 ++ [u])%list
      end /\
    visit_discussions self after_ (record_posts u posts m1) (after w3 (Sleep 1))
    = (Ret m', w') /\
    (forall k, ~ In k after_ -> dict_get k m' = dict_get k (record_posts u posts m1)) /\
    visit_discussions self (before ++ u :: after_) all_discussions w = (Ret m', w') /\
    crawl_events (trace w')
    = (crawl_events (trace w)
       ++ flat_map (visit_events self) (before ++ u :: after_))%list /\
    scrape_loop (S fuel) self page all_discussions w0
    = scrape_loop fuel self (page + 1) m' w'.
Proof.
  intros Hget Hlinks.
  destruct (visit_discussions_run self before all_discussions w) as (m1 & w1 & Hb & _).
  destruct (extract_posts_run self u (after w1 (Log INFO ("Scraping discussion: " ++ u))))
    as (v & w2 & w3 & Hg & Hx & _).
  destruct (visit_discussions_run self (before ++ u :: after_) all_discussions w)
    as (m' & w' & Hall & Ht).
  exists m1, w1, v, w2, w3, m', w'. cbv zeta.
  assert (Hrest : visit_discussions self after_
            (record_posts u
               match v with
               | Some page_soup => posts_of (select post_container_selector page_soup)
               | None => []
               end m1) (after w3 (Sleep 1)) = (Ret m', w')).
  { rewrite <- Hall.
    rewrite (visit_discussions_app self before (u :: after_) _ _ _ _ Hb).
    rewrite (visit_discussions_cons self u after_ m1 w1 w3 _ Hx). reflexivity. }
  repeat split; try assumption.
  - intros k Hk. exact (visit_discussions_frame self before _ _ _ _ Hb k Hk).
  - intros ->. reflexivity.
  - intros ->. reflexivity.
  - intros Hne.
    destruct (match v with
              | Some page_soup => posts_of (select post_container_selector page_soup)
              | None => []
              end) as [|p ps]; [congruence|].
    apply dict_get_set.
  - intros k Hk. apply record_posts_other. exact Hk.
  - destruct (match v with
              | Some page_soup => posts_of (select post_container_selector page_soup)
              | None => []
              end) as [|p ps]; [reflexivity|].
    apply keys_dict_set_order.
  - intros k Hk. exact (visit_discussions_frame self after_ _ _ _ _ Hrest k Hk).
  - eapply scrape_loop_next; eauto.
    destruct before; discriminate.
Qed.

Lemma crawl_events_page_log (w : World) (page : nat) :
  crawl_events (trace (after w (Log INFO ("Scraping page " ++ PyStr.str_of_nat page))))
  = (crawl_events (trace w)
     ++ [Log INFO ("Scraping page " ++ PyStr.str_of_nat page)])%list.
Proof.
  assert (H : is_page_log ("Scraping page " ++ PyStr.str_of_nat page) = true).
  { unfold is_page_log, PyStr.startswith. simpl.
    destruct (PyStr.str_of_nat page); reflexivity. }
  unfold after. cbn [trace]. rewrite crawl_events_app. f_equal.
  unfold crawl_events. cbn [filter crawl_event]. rewrite H. reflexivity.
Qed.

Lemma scrape_loop_pages (self : MoodleForumScraper) (P : nat) :
  forall (page fuel : nat) (m : discussions_dict) (w : World),
    (forall k, k < P -> nonempty_index_page self (page + k)) ->
    empty_index_page self (page + P) ->
    P < fuel ->
    exists m' w' pages,
      scrape_loop fuel self page m w = (Ret (m', page + P), w')
      /\ length pages = S P
      /\ crawl_events (trace w')
         = (crawl_events (trace w)
            ++ concat (map (fun kp => page_events self (fst kp) (snd kp))
                         (combine (seq page (S P)) pages)))%list.
Proof.
  induction P as [|P IH]; intros page fuel m w Hfull Hempty Hfuel;
    (destruct fuel as [|fuel]; [lia|]);
    set (w0 := after w (Log INFO ("Scraping page " ++ PyStr.str_of_nat page))).
  - rewrite Nat.add_0_r in *.
    destruct (Hempty w0) as (soup & w1 & Hget & Hsel).
    destruct (get_page_content_crawl self (index_url self page) w0)
      as (v & w1' & Hget' & Ht).
    rewrite Hget in Hget'. injection Hget' as <- <-.
    exists m, w1, [[]]. split; [|split].
    + eapply scrape_loop_stop; eauto.
    + reflexivity.
    + rewrite Ht. unfold w0. rewrite crawl_events_page_log.
      simpl. rewrite <- app_assoc. reflexivity.
  - assert (H0 : nonempty_index_page self page).
    { rewrite <- (Nat.add_0_r page). apply Hfull. lia. }
    destruct (H0 w0) as (soup & w1 & links & w2 & Hget & Hlinks & Hne).
    destruct (get_page_content_crawl self (index_url self page) w0)
      as (v & w1' & Hget' & Ht1).
    rewrite Hget in Hget'. injection Hget' as <- <-.
    destruct (discussion_links_loop_run self (select discussion_link_selector soup) [] w1)
      as (r & w2' & Hl & _ & _ & Ht2).
    unfold Scraper.get_discussion_links in Hlinks. rewrite Hlinks in Hl.
    injection Hl as <- <-.
    destruct (visit_discussions_run self links m w2) as (m1 & w3 & Hvisit & Ht3).
    destruct (IH (page + 1) fuel m1 w3) as (m' & w' & pages & Hloop & Hlen & Ht).
    + intros k Hk. replace (page + 1 + k) with (page + S k) by lia. apply Hfull. lia.
    + replace (page + 1 + P) with (page + S P) by lia. exact Hempty.
    + lia.
    + exists m', w', (links :: pages). split; [|split].
      * rewrite (scrape_loop_next self fuel page m m1 w w1 w2 w3 soup links
                   Hget Hlinks Hne Hvisit).
        rewrite Hloop. replace (page + 1 + P) with (page + S P) by lia. reflexivity.
      * simpl. rewrite Hlen. reflexivity.
      * rewrite Ht, Ht3, Ht2, Ht1. unfold w0. rewrite crawl_events_page_log.
        replace (page + 1) with (S page) by lia.
        change (seq page (S (S P))) with (page :: seq (S page) (S P)).
        cbn [combine map concat fst snd]. unfold page_events at 3.
        rewrite <- !app_assoc. reflexivity.
Qed.

(** C4. On a forum whose index pages 0 to P-1 each carry a discussion link
    and whose page P carries none, [scrape_forum] returns as soon as it has
    fuel for P+1 iterations.  It leaves its loop with the page counter at P;
    the crawl events of the run are P+1 page visits, for k = 0, 1, ..., P in
    this order, the k-th made of the announcement of page k, one request,
    with the scraper's cookie, for the URL made of the base URL, [&page=]
    and the decimal numeral of k, and for each link found on that page a
    request for it and a pause of one second. *)
Theorem pagination_ends_after_P_plus_1_fetches
  (self : MoodleForumScraper) (P fuel : nat) (w : World) :
  (forall k, k < P -> nonempty_index_page self k) ->
  empty_index_page self P ->
  P < fuel ->
  exists m' w' pages,
    scrape_loop fuel self 0 [] w = (Ret (m', P), w') /\
    scrape_forum fuel self w = (Ret m', w') /\
    length pages = P + 1 /\
    crawl_events (trace w')
    = (crawl_events (trace w)
       ++ concat
            (map (fun kp =>
                    let k := NilZero.string_of_uint (Nat.to_uint (fst kp)) in
                    Log INFO ("Scraping page " ++ k)
                    :: HttpGet (moodle_session self) (base_url self ++ "&page=" ++ k)
                    :: flat_map (fun u => [HttpGet (moodle_session self) u; Sleep 1])
                         (snd kp))
                 (combine (seq 0 (P + 1)) pages)))%list.
Proof.
  intros Hfull Hempty Hfuel.
  destruct (scrape_loop_pages self P 0 fuel [] w) as (m' & w' & pages & Hloop & Hlen & Ht);
    try assumption.
  exists m', w', pages. simpl in Hloop.
  replace (P + 1) with (S P) by lia.
  split; [exact Hloop|]. split; [|split; [exact Hlen|]].
  - unfold Scraper.scrape_forum, bind. rewrite Hloop. reflexivity.
  - rewrite Ht. reflexivity.
Qed.

(** ** The driver *)

Lemma forum_url_loop_empty (fuel : nat) (ms : string) (stdin : list string)
  (m : discussions_dict) (w : World) :
  forum_url_loop fuel ms ("" :: stdin) m w
  = (Ret (m, stdin), after w (Prompt forum_url_prompt)).
Proof. reflexivity. Qed.

Lemma forum_url_loop_invalid (fuel : nat) (ms forum_url : string) (stdin : list string)
  (m : discussions_dict) (w : World) :
  PyStr.truthy forum_url = true ->
  valid_forum_url forum_url = false ->
  forum_url_loop fuel ms (forum_url :: stdin) m w
  = forum_url_loop fuel ms stdin m
      (after (after w (Prompt forum_url_prompt)) (Log ERROR invalid_url_message)).
Proof.
  intros Hne Hbad. cbn [Scraper.forum_url_loop].
  unfold bind at 1. unfold emit at 1. rewrite Hne, Hbad. cbn [negb].
  unfold bind at 1. rewrite log_run. reflexivity.
Qed.

Lemma forum_url_loop_returns (fuel : nat) (ms : string) (stdin : list string) :
  forall (m m' : discussions_dict) (w w' : World) (rest : list string),
    forum_url_loop fuel ms stdin m w = (Ret (m', rest), w') ->
    exists consumed,
      stdin = (consumed ++ "" :: rest)%list /\ Forall (fun line => line <> "") consumed.
Proof.
  induction stdin as [|forum_url stdin IH]; intros m m' w w' rest Hrun.
  - discriminate Hrun.
  - cbn [Scraper.forum_url_loop] in Hrun.
    unfold bind at 1 in Hrun. unfold emit at 1 in Hrun.
    destruct forum_url as [|c forum_url].
    + cbn in Hrun. injection Hrun as <- <- <-.
      exists []. split; [reflexivity | constructor].
    + cbn [PyStr.truthy negb] in Hrun.
      assert (Hcons : forall consumed,
                stdin = (consumed ++ "" :: rest)%list /\
                Forall (fun line => line <> "") consumed ->
                exists consumed',
                  String c forum_url :: stdin = (consumed' ++ "" :: rest)%list /\
                  Forall (fun line => line <> "") consumed').
      { intros consumed [-> Hall]. exists (String c forum_url :: consumed).
        split; [reflexivity|]. constructor; [discriminate | exact Hall]. }
      destruct (valid_forum_url (String c forum_url)); cbn [negb] in Hrun.
      * unfold bind at 1 in Hrun. rewrite log_run in Hrun.
        unfold bind at 1 in Hrun. unfold Scraper.init in Hrun.
        unfold bind at 1 in Hrun. rewrite log_run in Hrun.
        unfold bind at 1 in Hrun. rewrite log_run in Hrun.
        unfold ret at 1 in Hrun.
        unfold bind at 1 in Hrun.
        match type of Hrun with
        | context [scrape_forum fuel ?sc ?w0] =>
            destruct (scrape_forum fuel sc w0) as [[[|kv d] | e | ] w1]
        end; try discriminate Hrun.
        -- repeat (unfold bind at 1 in Hrun; rewrite log_run in Hrun).
           destruct (IH _ _ _ _ _ Hrun) as (consumed & H). apply (Hcons consumed H).
        -- destruct (IH _ _ _ _ _ Hrun) as (consumed & H). apply (Hcons consumed H).
      * unfold bind at 1 in Hrun. rewrite log_run in Hrun.
        destruct (IH _ _ _ _ _ Hrun) as (consumed & H). apply (Hcons consumed H).
Qed.

(** C10. In the loop of [main] that collects forum URLs, a non-empty line
    that starts neither with [http://] nor with [https://] is answered with
    the error message and nothing else (no scraper is built and no request is
    made), and the loop prompts again for the lines that follow; the empty
    line ends the loop at once; and whenever the loop ends normally, the last
    line it read was empty and none before it was. *)
Theorem invalid_url_is_rejected_and_loop_goes_on
  (fuel : nat) (ms forum_url : string) (stdin : list string)
  (all_discussions : discussions_dict) (w : World) :
  forum_url <> "" ->
  PyStr.startswith forum_url "http://" = false ->
  PyStr.startswith forum_url "https://" = false ->
  forum_url_loop fuel ms (forum_url :: stdin) all_discussions w
  = forum_url_loop fuel ms stdin all_discussions
      (after (after w (Prompt forum_url_prompt)) (Log ERROR invalid_url_message)) /\
  forum_url_loop fuel ms ("" :: stdin) all_discussions w
  = (Ret (all_discussions, stdin), after w (Prompt forum_url_prompt)) /\
  (forall lines m' w' rest,
     forum_url_loop fuel ms lines all_discussions w = (Ret (m', rest), w') ->
     exists consumed,
       lines = (consumed ++ "" :: rest)%list /\
       Forall (fun line => line <> "") consumed).
Proof.
  intros Hne Hhttp Hhttps. split; [|split].
  - apply forum_url_loop_invalid.
    + destruct forum_url; [congruence | reflexivity].
    + unfold Scraper.valid_forum_url. rewrite Hhttp, Hhttps. reflexivity.
  - apply forum_url_loop_empty.
  - intros lines m' w' rest Hrun. eapply forum_url_loop_returns. exact Hrun.
Qed.

(** ** The text format *)

Lemma append_nil_r (s : string) : s ++ "" = s.
Proof. induction s as [|c s IH]; simpl; [reflexivity | rewrite IH; reflexivity]. Qed.

Lemma append_assoc (a b c : string) : (a ++ b) ++ c = a ++ (b ++ c).
Proof. induction a as [|x a IH]; simpl; [reflexivity | rewrite IH; reflexivity]. Qed.

Lemma concat_cons (x : string) (l : list string) :
  String.concat "" (x :: l) = x ++ String.concat "" l.
Proof. destruct l; simpl; [rewrite append_nil_r|]; reflexivity. Qed.

Lemma concat_app (l1 l2 : list string) :
  String.concat "" (l1 ++ l2) = String.concat "" l1 ++ String.concat "" l2.
Proof.
  induction l1 as [|x l1 IH]; [reflexivity|].
  rewrite <- app_comm_cons, !concat_cons, IH, append_assoc. reflexivity.
Qed.

Lemma split_lines_nonempty (s : string) : Reader.split_lines s <> [].
Proof.
  induction s as [|c s IH]; simpl; [discriminate|].
  destruct (Reader.is_nl c); [discriminate|].
  destruct (Reader.split_lines s); discriminate.
Qed.

Lemma split_lines_app (a b : string) :
  Reader.split_lines ((a ++ nl) ++ b)
  = (Reader.split_lines a ++ Reader.split_lines b)%list.
Proof.
  induction a as [|c a IH]; [reflexivity|].
  cbn [append Reader.split_lines]. rewrite IH.
  destruct (Reader.is_nl c); [reflexivity|].
  pose proof (split_lines_nonempty a) as Hne.
  destruct (Reader.split_lines a); [congruence | reflexivity].
Qed.

Lemma split_lines_nl (s : string) :
  Reader.split_lines (nl ++ s) = "" :: Reader.split_lines s.
Proof. reflexivity. Qed.

Lemma split_lines_plain (s : string) :
  Reader.no_newline s = true -> Reader.split_lines s = [s].
Proof.
  induction s as [|c s IH]; [reflexivity|].
  cbn [Reader.no_newline Reader.split_lines]. intros H.
  apply andb_true_iff in H as [Hc Hs].
  destruct (Reader.is_nl c); [discriminate|]. rewrite (IH Hs). reflexivity.
Qed.

Lemma no_newline_app (a b : string) :
  Reader.no_newline (a ++ b) = Reader.no_newline a && Reader.no_newline b.
Proof.
  induction a as [|c a IH]; [reflexivity|].
  cbn [append Reader.no_newline]. rewrite IH, andb_assoc. reflexivity.
Qed.

(** A write of [label ++ value ++ nl] makes the line [label ++ value]. *)
Lemma split_lines_field (label value rest : string) :
  Reader.no_newline label = true ->
  Reader.no_newline value = true ->
  Reader.split_lines ((label ++ value ++ nl) ++ rest)
  = (label ++ value) :: Reader.split_lines rest.
Proof.
  intros Hl Hv. rewrite <- (append_assoc label value nl), split_lines_app.
  rewrite split_lines_plain; [reflexivity|].
  rewrite no_newline_app, Hl, Hv. reflexivity.
Qed.

Lemma concat_split_lines (s : string) : String.concat nl (Reader.split_lines s) = s.
Proof.
  induction s as [|c s IH]; [reflexivity|].
  cbn [Reader.split_lines].
  pose proof (split_lines_nonempty s) as Hne.
  destruct (Reader.is_nl c) eqn:Hc.
  - apply Ascii.eqb_eq in Hc. subst c.
    destruct (Reader.split_lines s) as [|l ls]; [congruence|].
    change (String.concat nl ("" :: l :: ls)) with (nl ++ String.concat nl (l :: ls)).
    rewrite IH. reflexivity.
  - destruct (Reader.split_lines s) as [|l ls]; [congruence|].
    destruct ls as [|l' ls].
    + simpl in IH. subst l. reflexivity.
    + change (String.concat nl (String c l :: l' :: ls))
        with (String c (l ++ nl ++ String.concat nl (l' :: ls))).
      change (String.concat nl (l :: l' :: ls))
        with (l ++ nl ++ String.concat nl (l' :: ls)) in IH.
      rewrite IH. reflexivity.
Qed.

Lemma strip_prefix_app (label rest : string) :
  Reader.strip_prefix label (label ++ rest) = Some rest.
Proof.
  induction label as [|c label IH]; [reflexivity|].
  cbn [append Reader.strip_prefix]. rewrite Ascii.eqb_refl. exact IH.
Qed.

Lemma until_rule_app (body rest : list string) :
  existsb (fun l => String.eqb l Scraper.rule40) body = false ->
  Reader.until_rule (body ++ Scraper.rule40 :: rest) = Some (body, rest).
Proof.
  induction body as [|l body IH]; intros H.
  - cbn [app Reader.until_rule]. rewrite String.eqb_refl. reflexivity.
  - cbn [existsb] in H. apply orb_false_iff in H as [Hl Hb].
    cbn [app Reader.until_rule]. rewrite Hl, (IH Hb). reflexivity.
Qed.

Lemma read_post_lines (p : ForumPost) (rest : list string) :
  Reader.plain_post p = true ->
  Reader.read_post (Reader.post_lines p ++ rest) = Some (p, rest).
Proof.
  intros Hp. unfold Reader.plain_post in Hp.
  apply andb_true_iff in Hp as [Hp Hc]. apply negb_true_iff in Hc.
  unfold Reader.post_lines. cbn [app Reader.read_post].
  rewrite !strip_prefix_app. cbn [String.eqb Ascii.eqb Bool.eqb].
  assert (Hbody : existsb (fun l => String.eqb l Scraper.rule40)
                    (Reader.split_lines (content p) ++ [""]) = false).
  { rewrite existsb_app, Hc. reflexivity. }
  replace ((Reader.split_lines (content p) ++ [""; Scraper.rule40; ""]) ++ rest)%list
    with ((Reader.split_lines (content p) ++ [""]) ++ Scraper.rule40 :: "" :: rest)%list
    by (rewrite <- !app_assoc; reflexivity).
  rewrite (until_rule_app _ _ Hbody).
  rewrite rev_app_distr. cbn [rev app]. rewrite rev_involutive, concat_split_lines.
  destruct p; reflexivity.
Qed.

Lemma read_posts_lines (ps : list ForumPost) :
  forall (fuel : nat) (rest : list string),
    forallb Reader.plain_post ps = true ->
    length ps < fuel ->
    Reader.read_post rest = None ->
    Reader.read_posts fuel (flat_map Reader.post_lines ps ++ rest) = (ps, rest).
Proof.
  induction ps as [|p ps IH]; intros fuel rest Hps Hfuel Hrest;
    (destruct fuel as [|fuel]; [simpl in Hfuel; lia|]).
  - cbn [flat_map app Reader.read_posts]. rewrite Hrest. reflexivity.
  - cbn [forallb] in Hps. apply andb_true_iff in Hps as [Hp Hps].
    cbn [flat_map Reader.read_posts]. rewrite <- app_assoc.
    rewrite (read_post_lines p _ Hp).
    rewrite (IH fuel rest Hps); [reflexivity | simpl in Hfuel; lia | exact Hrest].
Qed.

Lemma post_lines_length (ps : list ForumPost) :
  length ps <= length (flat_map Reader.post_lines ps).
Proof.
  induction ps as [|p ps IH]; [apply Nat.le_refl|].
  cbn [flat_map]. rewrite length_app. unfold Reader.post_lines at 1. simpl. lia.
Qed.

Lemma read_discussions_lines (ds : discussions_dict) :
  forall fuel,
    Reader.plain_discussions ds = true ->
    length (flat_map Reader.discussion_lines ds ++ [""]) < fuel ->
    Reader.read_discussions fuel (flat_map Reader.discussion_lines ds ++ [""]) = Some ds.
Proof.
  induction ds as [|[url posts] ds IH]; intros fuel Hds Hfuel;
    (destruct fuel as [|fuel]; [lia|]).
  - reflexivity.
  - cbn [Reader.plain_discussions forallb fst snd] in Hds.
    apply andb_true_iff in Hds as [Hd Hds]. apply andb_true_iff in Hd as [Hurl Hposts].
    cbn [flat_map] in *. unfold Reader.discussion_lines at 1 in Hfuel.
    unfold Reader.discussion_lines at 1. cbn [fst snd] in *.
    rewrite <- !app_comm_cons in *. rewrite <- app_assoc in *.
    cbn [length] in Hfuel. rewrite length_app in Hfuel.
    pose proof (post_lines_length posts) as Hlen.
    cbn [Reader.read_discussions Reader.read_header].
    rewrite !String.eqb_refl, strip_prefix_app. cbn [andb].
    rewrite (read_posts_lines posts fuel _ Hposts).
    + rewrite (IH fuel Hds); [reflexivity | lia].
    + lia.
    + destruct ds as [|[url' posts'] ds']; reflexivity.
Qed.

Lemma post_writes_lines (p : ForumPost) (rest : string) :
  Reader.plain_post p = true ->
  Reader.split_lines (String.concat "" (Scraper.post_writes p) ++ rest)
  = (Reader.post_lines p ++ Reader.split_lines rest)%list.
Proof.
  intros Hp. unfold Reader.plain_post in Hp.
  apply andb_true_iff in Hp as [Hp _]. apply andb_true_iff in Hp as [Hp Hd].
  apply andb_true_iff in Hp as [Ht Ha].
  unfold Scraper.post_writes. rewrite !concat_cons.
  change (String.concat "" []) with "". rewrite append_nil_r.
  rewrite (append_assoc ("Title: " ++ title p ++ nl)).
  rewrite split_lines_field; [|reflexivity | exact Ht].
  rewrite (append_assoc ("Author: " ++ author p ++ nl)).
  rewrite split_lines_field; [|reflexivity | exact Ha].
  rewrite (append_assoc ("Date: " ++ date p ++ nl)).
  rewrite split_lines_field; [|reflexivity | exact Hd].
  rewrite (append_assoc ("Content:" ++ nl ++ content p ++ nl)).
  change (("Content:" ++ nl ++ content p ++ nl)
            ++ (nl ++ Scraper.rule40 ++ nl ++ nl) ++ rest)
    with (("Content:" ++ "" ++ nl)
            ++ ((content p ++ nl) ++ (nl ++ Scraper.rule40 ++ nl ++ nl) ++ rest)).
  rewrite split_lines_field; [|reflexivity | reflexivity].
  rewrite split_lines_app.
  change ((nl ++ Scraper.rule40 ++ nl ++ nl) ++ rest)
    with (("" ++ "" ++ nl) ++ ((Scraper.rule40 ++ nl ++ nl) ++ rest)).
  rewrite split_lines_field; [|reflexivity | reflexivity].
  rewrite (append_assoc Scraper.rule40).
  change ((nl ++ nl) ++ rest) with (nl ++ ("" ++ "" ++ nl) ++ rest).
  rewrite <- (append_assoc Scraper.rule40 nl), split_lines_app.
  rewrite split_lines_field; [|reflexivity | reflexivity].
  rewrite (split_lines_plain Scraper.rule40); [|reflexivity].
  unfold Reader.post_lines. cbn [app]. rewrite <- app_assoc. reflexivity.
Qed.

Lemma posts_writes_lines (ps : list ForumPost) (rest : string) :
  forallb Reader.plain_post ps = true ->
  Reader.split_lines (String.concat "" (flat_map Scraper.post_writes ps) ++ rest)
  = (flat_map Reader.post_lines ps ++ Reader.split_lines rest)%list.
Proof.
  induction ps as [|p ps IH]; intros Hps; [reflexivity|].
  cbn [forallb] in Hps. apply andb_true_iff in Hps as [Hp Hps].
  cbn [flat_map]. rewrite concat_app, append_assoc.
  rewrite (post_writes_lines p _ Hp), (IH Hps), app_assoc. reflexivity.
Qed.

Lemma discussion_writes_lines (kv : string * list ForumPost) (rest : string) :
  Reader.no_newline (fst kv) = true ->
  forallb Reader.plain_post (snd kv) = true ->
  Reader.split_lines (String.concat "" (Scraper.discussion_writes kv) ++ rest)
  = (Reader.discussion_lines kv ++ Reader.split_lines rest)%list.
Proof.
  intros Hurl Hposts. unfold Scraper.discussion_writes.
  rewrite concat_app, !concat_cons.
  change (String.concat "" []) with "". rewrite append_nil_r.
  rewrite (append_assoc _ _ rest).
  rewrite (append_assoc (nl ++ Scraper.rule80 ++ nl)).
  rewrite (append_assoc nl), split_lines_nl, split_lines_app.
  rewrite (split_lines_plain Scraper.rule80); [|reflexivity].
  rewrite (append_assoc ("Discussion URL: " ++ fst kv ++ nl)).
  rewrite split_lines_field; [|reflexivity | exact Hurl].
  rewrite (append_assoc Scraper.rule80), (append_assoc nl nl).
  rewrite <- (append_assoc Scraper.rule80 nl), split_lines_app, split_lines_nl.
  rewrite (split_lines_plain Scraper.rule80); [|reflexivity].
  rewrite (posts_writes_lines _ _ Hposts). reflexivity.
Qed.

Lemma export_text_lines (ds : discussions_dict) (rest : string) :
  Reader.plain_discussions ds = true ->
  Reader.split_lines (String.concat "" (flat_map Scraper.discussion_writes ds) ++ rest)
  = (flat_map Reader.discussion_lines ds ++ Reader.split_lines rest)%list.
Proof.
  induction ds as [|kv ds IH]; intros Hds; [reflexivity|].
  cbn [Reader.plain_discussions forallb] in Hds.
  apply andb_true_iff in Hds as [Hkv Hds]. apply andb_true_iff in Hkv as [Hurl Hposts].
  cbn [flat_map]. rewrite concat_app, append_assoc.
  rewrite (discussion_writes_lines kv _ Hurl Hposts), (IH Hds), app_assoc. reflexivity.
Qed.

(** C2 (amended). When no URL, title, author or date holds a line feed and
    no content has a line made of the forty dashes of the post rule, the
    text that [save_to_file] writes reads back as the mapping that was
    saved: the same discussions in the same order, each with its URL and its
    posts, title, author, date and content unchanged, the reader accepting
    the field labels only as they are written. *)
Theorem export_reads_back
  (self : MoodleForumScraper) (discussions : discussions_dict)
  (output_file : string) (w : World) :
  Reader.plain_discussions discussions = true ->
  save_to_file self discussions output_file w
  = (Ret tt,
     after (after w (FileWrite (output_path output_file)
                       (Scraper.export_text discussions)))
       (Log INFO ("Forum content has been saved to " ++ output_path output_file))) /\
  Reader.read_export (Scraper.export_text discussions) = Some discussions.
Proof.
  intros Hplain. split; [reflexivity|].
  unfold Reader.read_export, Scraper.export_text.
  rewrite <- (append_nil_r (String.concat "" (flat_map Scraper.discussion_writes discussions))).
  rewrite (export_text_lines discussions "" Hplain).
  change (Reader.split_lines "") with [""].
  apply read_discussions_lines; [exact Hplain | apply Nat.lt_succ_diag_r].
Qed.

End Properties.

(** * The small forum, checked *)

(** The discussion page of the small forum has three containers and the second
    lacks its author link: the result has two posts, what the first container
    yields followed by what the third yields. *)
Lemma extract_posts_skips_incomplete_witness :
  missing_required Demo.container_without_author = true /\
  exists posts w',
    Scraper.extract_posts_from_discussion unit Demo.static_get Demo.parse
      Demo.self Demo.discussion_1 Demo.start = (Ret posts, w') /\
    length posts + 1 = 3 /\
    exists p1 p2,
      posts = (p1 ++ p2)%list /\
      Scraper.extracts unit [Demo.complete_container] p1 /\
      Scraper.extracts unit [Demo.container_without_datetime] p2.
Proof.
  split; [reflexivity|].
  destruct (extract_posts_skips_incomplete unit Demo.static_get Demo.parse
              Demo.self Demo.discussion_1 Demo.start _ _ eq_refl)
    as (posts & w' & Hrun & Hlen & _ & Hsplit).
  exists posts, w'. split; [exact Hrun|]. split; [exact Hlen|].
  exact (Hsplit [Demo.complete_container] Demo.container_without_author
           [Demo.container_without_datetime] eq_refl eq_refl).
Defined.

(** The third container of that page has a timestamp without [datetime]: its
    post is there, dated with the empty string. *)
Lemma date_defaults_to_empty_string_witness :
  find_date Demo.container_without_datetime
  = Some (Tag "time" [] [NavigableString "yesterday"]) /\
  exists p1 p2 w',
    Scraper.extracts unit [Demo.complete_container; Demo.container_without_author] p1 /\
    Scraper.extracts unit [] p2 /\
    Scraper.extract_posts_from_discussion unit Demo.static_get Demo.parse
      Demo.self Demo.discussion_1 Demo.start
    = (Ret (p1 ++ Demo.third_post :: p2)%list, w').
Proof.
  split; [reflexivity|].
  destruct (date_defaults_to_empty_string unit Demo.static_get Demo.parse
              Demo.self Demo.discussion_1 Demo.start _ _
              [Demo.complete_container; Demo.container_without_author] []
              Demo.container_without_datetime eq_refl eq_refl)
    as (p1 & p2 & Hb & Ha & Hdate & _).
  destruct (Hdate _ _ _ _ eq_refl eq_refl eq_refl eq_refl eq_refl) as (w' & Hrun).
  exists p1, p2, w'. split; [exact Hb|]. split; [exact Ha|]. exact Hrun.
Defined.

(** Index page 1 of the small forum has no discussion link: the loop of
    [scrape_forum] ends there. *)
Lemma no_links_ends_pagination_witness :
  select discussion_link_selector Demo.index_1 = [] /\
  Scraper.get_discussion_links unit Demo.urljoin Demo.self Demo.index_1 Demo.start
  = (Ret [], Demo.start) /\
  exists w1,
    Scraper.scrape_loop unit Demo.static_get Demo.parse Demo.urljoin 1 Demo.self 1
      Demo.exported Demo.start = (Ret (Demo.exported, 1), w1).
Proof.
  split; [reflexivity|].
  destruct (no_links_ends_pagination unit Demo.static_get Demo.parse Demo.urljoin
              Demo.self Demo.index_1 eq_refl) as (Hlinks & Hloop & _).
  split; [apply Hlinks|].
  eexists. apply Hloop. reflexivity.
Defined.

(** The small forum has one index page with links, followed by an empty
    one: two index fetches. *)
Lemma pagination_ends_after_P_plus_1_fetches_witness :
  exists m' w' pages,
    Scraper.scrape_loop unit Demo.static_get Demo.parse Demo.urljoin 2 Demo.self 0 []
      Demo.start = (Ret (m', 1), w') /\
    Scraper.scrape_forum unit Demo.static_get Demo.parse Demo.urljoin 2 Demo.self
      Demo.start = (Ret m', w') /\
    length pages = 1 + 1 /\
    crawl_events (trace w')
    = (crawl_events (trace Demo.start)
       ++ concat
            (map (fun kp =>
                    let k := NilZero.string_of_uint (Nat.to_uint (fst kp)) in
                    Log INFO ("Scraping page " ++ k)
                    :: HttpGet (moodle_session Demo.self)
                         (base_url Demo.self ++ "&page=" ++ k)
                    :: flat_map (fun u => [HttpGet (moodle_session Demo.self) u; Sleep 1])
                         (snd kp))
                 (combine (seq 0 (1 + 1)) pages)))%list.
Proof.
  apply (pagination_ends_after_P_plus_1_fetches unit Demo.static_get Demo.parse
           Demo.urljoin Demo.self 1 2 Demo.start).
  - intros k Hk w. destruct k as [|k]; [|lia].
    exists Demo.index_0. eexists. eexists. eexists.
    split; [reflexivity|]. split; [reflexivity | discriminate].
  - intros w. exists Demo.index_1. eexists. split; reflexivity.
  - lia.
Defined.

(** On index page 0 of the small forum the second discussion ends on the
    login page: the crawl goes on to page 1 all the same. *)
Lemma visits_record_nonempty_and_continue_witness :
  (exists wa w,
     Scraper.get_page_content unit Demo.static_get Demo.parse Demo.self
       (index_url Demo.self 0)
       (after Demo.start (Log INFO ("Scraping page " ++ PyStr.str_of_nat 0)))
     = (Ret (Some Demo.index_0), wa) /\
     Scraper.get_discussion_links unit Demo.urljoin Demo.self Demo.index_0 wa
     = (Ret ([Demo.discussion_1] ++ Demo.discussion_2 :: [])%list, w)) /\
  exists m' w',
    Scraper.scrape_loop unit Demo.static_get Demo.parse Demo.urljoin 2 Demo.self 0 []
      Demo.start
    = Scraper.scrape_loop unit Demo.static_get Demo.parse Demo.urljoin 1 Demo.self
        (0 + 1) m' w'.
Proof.
  split.
  - eexists. eexists. split; reflexivity.
  - destruct (visits_record_nonempty_and_continue unit Demo.static_get Demo.parse
                Demo.urljoin Demo.self 1 0 [] Demo.start _ _ Demo.index_0
                [Demo.discussion_1] [] Demo.discussion_2 eq_refl eq_refl)
      as (m1 & w1 & v & w2 & w3 & m' & w' & H).
    exists m', w'. apply H.
Defined.

(** Fetching the second discussion of the small forum ends on the login
    page. *)
Lemma login_redirect_fails_like_other_failures_witness :
  Scraper.fetch_failure unit Demo.static_get Demo.self Demo.discussion_2 Demo.start /\
  exists w',
    Scraper.get_page_content unit Demo.static_get Demo.parse Demo.self
      Demo.discussion_2 Demo.start = (Ret None, w').
Proof.
  assert (H : Scraper.fetch_failure unit Demo.static_get Demo.self
                Demo.discussion_2 Demo.start).
  { eapply Scraper.login_redirect; reflexivity. }
  split; [exact H|].
  exact (login_redirect_fails_like_other_failures unit Demo.static_get Demo.parse
           Demo.self Demo.discussion_2 Demo.start H).
Defined.

(** An [ftp] URL is turned down and the next line, empty, ends the loop: the
    trace holds the two prompts and the error message, and nothing else. *)
Lemma invalid_url_is_rejected_and_loop_goes_on_witness :
  Scraper.valid_forum_url "ftp://moodle.example/forum" = false /\
  Scraper.forum_url_loop unit Demo.static_get Demo.parse Demo.urljoin 3 "s3cr3t"
    ["ftp://moodle.example/forum"; ""; Demo.forum] [] Demo.start
  = (Ret ([], [Demo.forum]),
     {| server := tt;
        trace := [Prompt Scraper.forum_url_prompt;
                  Log ERROR Scraper.invalid_url_message;
                  Prompt Scraper.forum_url_prompt] |}).
Proof.
  split; [reflexivity|].
  assert (Hne : "ftp://moodle.example/forum" <> "") by discriminate.
  destruct (invalid_url_is_rejected_and_loop_goes_on unit Demo.static_get Demo.parse
              Demo.urljoin 3 "s3cr3t" "ftp://moodle.example/forum" [""; Demo.forum] []
              Demo.start Hne eq_refl eq_refl) as (Hstep & _ & _).
  rewrite Hstep. reflexivity.
Defined.

(** A mapping with a post of two lines reads back. *)
Lemma export_reads_back_witness :
  Reader.plain_discussions Demo.exported = true /\
  Reader.read_export (Scraper.export_text Demo.exported) = Some Demo.exported.
Proof.
  split; [reflexivity|].
  exact (proj2 (export_reads_back unit Demo.output_dir Demo.path_join Demo.self
                  Demo.exported "foro_exportado.txt" Demo.start eq_refl)).
Defined.

(** C2, as stated, fails: two different mappings are exported to the same
    text, so that no reader gives both back; the reader above gives the
    second for the first. *)
Lemma export_is_not_injective :
  Scraper.export_text Demo.merged = Scraper.export_text Demo.split /\
  Demo.merged <> Demo.split /\
  Reader.read_export (Scraper.export_text Demo.merged) = Some Demo.split.
Proof.
  split; [vm_compute; reflexivity|]. split; [|vm_compute; reflexivity].
  intros H. discriminate H.
Qed.

(** C6, as stated, fails: the index page lists the same discussion twice, the
    first visit records its posts, the fetch of the second visit ends on the
    login page, and the mapping returned by [scrape_forum] still has the
    key. *)
Lemma failed_fetch_keeps_recorded_key :
  exists wl m1 w1 w2 m' w',
    Scraper.get_discussion_links bool Demo.urljoin Demo.self Demo.index_twice
      Demo.fresh_session = (Ret [Demo.discussion_1; Demo.discussion_1], wl) /\
    Scraper.visit_discussions bool Demo.expiring_get Demo.parse_twice Demo.self
      [Demo.discussion_1] [] Demo.fresh_session = (Ret m1, w1) /\
    Scraper.get_page_content bool Demo.expiring_get Demo.parse_twice Demo.self
      Demo.discussion_1
      (after w1 (Log INFO ("Scraping discussion: " ++ Demo.discussion_1)))
    = (Ret None, w2) /\
    Scraper.scrape_forum bool Demo.expiring_get Demo.parse_twice Demo.urljoin 2
      Demo.self Demo.fresh_session = (Ret m', w') /\
    dict_get Demo.discussion_1 m' = Some [Demo.first_post; Demo.third_post].
Proof.
  pose (w1 := snd (Scraper.visit_discussions bool Demo.expiring_get Demo.parse_twice
                     Demo.self [Demo.discussion_1] [] Demo.fresh_session)).
  exists (snd (Scraper.get_discussion_links bool Demo.urljoin Demo.self
                 Demo.index_twice Demo.fresh_session)),
    [(Demo.discussion_1, [Demo.first_post; Demo.third_post])], w1,
    (snd (Scraper.get_page_content bool Demo.expiring_get Demo.parse_twice Demo.self
            Demo.discussion_1
            (after w1 (Log INFO ("Scraping discussion: " ++ Demo.discussion_1))))),
    [(Demo.discussion_1, [Demo.first_post; Demo.third_post])],
    (snd (Scraper.scrape_forum bool Demo.expiring_get Demo.parse_twice Demo.urljoin 2
            Demo.self Demo.fresh_session)).
  subst w1. repeat split; vm_compute; reflexivity.
Qed.

(** * More properties of the scraper *)

Section MoreProperties.

Variable Server : Type.
Variable http_get : string -> string -> Server -> (exn + Response) * Server.
Variable BeautifulSoup : string -> exn + node.
Variable urljoin : string -> option string -> exn + option string.
Variable OUTPUT_DIR : string.
Variable path_join : string -> string -> string.
Variable open_error : string -> option exn.

Local Abbreviation M := (Py.M Server).
Local Abbreviation World := (Py.World Server).
Local Abbreviation get_page_content := (Scraper.get_page_content Server http_get BeautifulSoup).
Local Abbreviation get_discussion_links := (Scraper.get_discussion_links Server urljoin).
Local Abbreviation discussion_links_loop := (Scraper.discussion_links_loop Server urljoin).
Local Abbreviation posts_loop := (Scraper.posts_loop Server).
Local Abbreviation extract_posts_from_discussion :=
  (Scraper.extract_posts_from_discussion Server http_get BeautifulSoup).
Local Abbreviation visit_discussions := (Scraper.visit_discussions Server http_get BeautifulSoup).
Local Abbreviation scrape_loop := (Scraper.scrape_loop Server http_get BeautifulSoup urljoin).
Local Abbreviation scrape_forum := (Scraper.scrape_forum Server http_get BeautifulSoup urljoin).
Local Abbreviation fetch_failure := (Scraper.fetch_failure Server http_get).
Local Abbreviation record_posts := Scraper.record_posts.
Local Abbreviation forum_url_loop :=
  (Scraper.forum_url_loop Server http_get BeautifulSoup urljoin).
Local Abbreviation main :=
  (Scraper.main Server http_get BeautifulSoup urljoin OUTPUT_DIR path_join open_error).
Local Abbreviation save_to_file := (Scraper.save_to_file Server OUTPUT_DIR path_join).
Local Abbreviation output_path := (Scraper.output_path OUTPUT_DIR path_join).

(** ** The mapping built by a crawl *)

Lemma keys_dict_set (k : string) (v : list ForumPost) (d : discussions_dict) (x : string) :
  In x (keys (dict_set k v d)) <-> x = k \/ In x (keys d).
Proof.
  induction d as [|[k' v'] d IH]; simpl.
  - split; intros [H|[]]; left; congruence.
  - destruct (String.eqb k k') eqn:E; simpl.
    + apply String.eqb_eq in E. rewrite <- E. split.
      * intros [H|H]; [left; congruence | right; right; exact H].
      * intros [H|[H|H]]; [left; congruence | left; exact H | right; exact H].
    + rewrite IH. split.
      * intros [H|[H|H]]; [right; left; exact H | left; exact H | right; right; exact H].
      * intros [H|[H|H]]; [right; left; exact H | left; exact H | right; right; exact H].
Qed.

Lemma dict_set_NoDup (k : string) (v : list ForumPost) (d : discussions_dict) :
  NoDup (keys d) -> NoDup (keys (dict_set k v d)).
Proof.
  induction d as [|[k' v'] d IH]; simpl; intros H.
  - constructor; [intros [] | constructor].
  - inversion H as [|? ? Hnotin Hd]; subst.
    destruct (String.eqb k k') eqn:E; simpl.
    + constructor; assumption.
    + constructor; [|apply IH; exact Hd].
      intros Hin. apply keys_dict_set in Hin as [->|Hin]; [|contradiction].
      rewrite String.eqb_refl in E. discriminate.
Qed.

Lemma dict_set_values (k : string) (v : list ForumPost) (d : discussions_dict) :
  v <> [] ->
  Forall (fun kv => snd kv <> []) d ->
  Forall (fun kv => snd kv <> []) (dict_set k v d).
Proof.
  intros Hv. induction d as [|[k' v'] d IH]; simpl; intros H.
  - constructor; [exact Hv | constructor].
  - inversion H; subst. destruct (String.eqb k k'); constructor; auto.
Qed.

Lemma record_posts_well_formed (u : string) (posts : list ForumPost)
  (d : discussions_dict) :
  well_formed d -> well_formed (record_posts u posts d).
Proof.
  intros [Hk Hv]. destruct posts as [|p ps]; [split; assumption|].
  split; [apply dict_set_NoDup; exact Hk|].
  apply dict_set_values; [discriminate | exact Hv].
Qed.

Lemma keys_record_posts (u : string) (posts : list ForumPost)
  (d : discussions_dict) (x : string) :
  In x (keys (record_posts u posts d)) -> x = u \/ In x (keys d).
Proof.
  destruct posts; simpl; [auto|]. apply keys_dict_set.
Qed.

(** ** What a crawl adds to the trace *)

Lemma extended_refl (allowed : event -> bool) (t : list event) :
  extended_by allowed t t.
Proof. exists []. rewrite app_nil_r. split; reflexivity. Qed.

Lemma extended_trans (allowed : event -> bool) (t1 t2 t3 : list event) :
  extended_by allowed t1 t2 -> extended_by allowed t2 t3 -> extended_by allowed t1 t3.
Proof.
  intros (e1 & -> & H1) (e2 & -> & H2). exists (e1 ++ e2)%list.
  rewrite app_assoc, forallb_app, H1, H2. split; reflexivity.
Qed.

Lemma extended_after (allowed : event -> bool) (w : World) (e : event) :
  allowed e = true -> extended_by allowed (trace w) (trace (after w e)).
Proof. intros H. exists [e]. simpl. rewrite H. split; reflexivity. Qed.

Lemma extended_after_then (allowed : event -> bool) (w : World) (e : event)
  (t : list event) :
  allowed e = true ->
  extended_by allowed (trace (after w e)) t -> extended_by allowed (trace w) t.
Proof.
  intros He H. eapply extended_trans; [apply extended_after; exact He | exact H].
Qed.

(** Closes a goal [extended_by (crawl_step self) (trace w) t] where [t] is
    [trace w] with explicit events appended. *)
Ltac extended_explicit :=
  unfold after; cbn [trace]; rewrite <- ?app_assoc;
  eexists; split; [reflexivity | simpl; rewrite ?String.eqb_refl; reflexivity].

Lemma get_page_content_extends (self : MoodleForumScraper) (url : string) (w : World) :
  exists v w', get_page_content self url w = (Ret v, w') /\
    extended_by (crawl_step self) (trace w) (trace w').
Proof.
  unfold Scraper.get_page_content, Scraper.session_get, Scraper.raise_for_status.
  unfold bind, try_except, log, emit, call, ret, raise. simpl.
  destruct (http_get (moodle_session self) url (server w)) as [[e | r] s'].
  - destruct e; simpl; eexists; eexists; (split; [reflexivity | extended_explicit]).
  - destruct (is_http_error (status_code r)); simpl.
    + eexists; eexists; (split; [reflexivity | extended_explicit]).
    + destruct (is_login_url (resp_url r)); simpl.
      * eexists; eexists; (split; [reflexivity | extended_explicit]).
      * destruct (BeautifulSoup (resp_text r)) as [e | soup]; simpl.
        -- destruct e; simpl; eexists; eexists;
             (split; [reflexivity | extended_explicit]).
        -- eexists; eexists; (split; [reflexivity | extended_explicit]).
Qed.

Lemma discussion_links_loop_spec (self : MoodleForumScraper) (l : list node) :
  forall (acc : list string) (w : World),
  exists r w',
    discussion_links_loop self l acc w = (r, w')
    /\ extended_by (crawl_step self) (trace w) (trace w')
    /\ (forall links, r = Ret links ->
        links = (acc ++ joined_links urljoin (base_url self) l)%list)
    /\ (forall e, r = Raise e ->
        exists a, In a l /\ urljoin (base_url self) (get a "href") = inl e)
    /\ r <> OutOfFuel.
Proof.
  induction l as [|link l IH]; intros acc w; cbn [Scraper.discussion_links_loop].
  - exists (Ret acc), w. split; [reflexivity|]. split; [apply extended_refl|].
    split; [|split; discriminate].
    intros links H. injection H as <-. simpl. rewrite app_nil_r. reflexivity.
  - unfold bind at 1. unfold joined_links. cbn [flat_map].
    destruct (urljoin (base_url self) (get link "href")) as [e | [u|]] eqn:Hjoin.
    + exists (Raise e), w. split; [reflexivity|]. split; [apply extended_refl|].
      split; [discriminate|]. split; [|discriminate].
      intros e' H. injection H as <-. exists link. split; [left; reflexivity | exact Hjoin].
    + unfold call, ret. destruct (PyStr.truthy u).
      * unfold bind. rewrite log_run.
        destruct (IH (acc ++ [u])%list
                     (after w (Log INFO ("Found discussion: "
                                          ++ PyStr.strip (text link) ++ " - " ++ u))))
          as (r & w' & H & Hext & Hret & Hraise & Hfuel).
        exists r, w'. split; [exact H|]. split.
        -- eapply extended_after_then; [|exact Hext]. reflexivity.
        -- split; [|split; [|exact Hfuel]].
           ++ intros links Hr. rewrite (Hret links Hr), <- app_assoc. reflexivity.
           ++ intros e Hr. destruct (Hraise e Hr) as (a & Ha & Hj).
              exists a. split; [right; exact Ha | exact Hj].
      * destruct (IH acc w) as (r & w' & H & Hext & Hret & Hraise & Hfuel).
        exists r, w'. split; [exact H|]. split; [exact Hext|]. split; [exact Hret|].
        split; [|exact Hfuel].
        intros e Hr. destruct (Hraise e Hr) as (a & Ha & Hj).
        exists a. split; [right; exact Ha | exact Hj].
    + destruct (IH acc w) as (r & w' & H & Hext & Hret & Hraise & Hfuel).
      exists r, w'. split; [exact H|]. split; [exact Hext|]. split; [exact Hret|].
      split; [|exact Hfuel].
      intros e Hr. destruct (Hraise e Hr) as (a & Ha & Hj).
      exists a. split; [right; exact Ha | exact Hj].
Qed.

Lemma extract_post_extends (self : MoodleForumScraper) (c : node)
  (posts : list ForumPost) (w : World) :
  exists posts' w',
    Scraper.extract_post Server c posts w = (Ret posts', w')
    /\ extended_by (crawl_step self) (trace w) (trace w').
Proof.
  unfold Scraper.extract_post.
  destruct (select_one post_content_selector c) as [pc|];
    destruct (select_one header_selector c) as [h|];
    try (exists posts, w; split; [reflexivity | apply extended_refl]).
  destruct (select_one title_selector h) as [t|];
    destruct (select_one author_link_selector h) as [a|];
    destruct (select_one time_selector h) as [d|];
    unfold bind, log, emit, ret; simpl;
    eexists; eexists; (split; [reflexivity | extended_explicit]).
Qed.

Lemma posts_loop_extends (self : MoodleForumScraper) (l : list node) :
  forall (posts : list ForumPost) (w : World),
  exists posts' w',
    posts_loop l posts w = (Ret posts', w')
    /\ extended_by (crawl_step self) (trace w) (trace w').
Proof.
  induction l as [|c l IH]; intros posts w; cbn [Scraper.posts_loop].
  - exists posts, w. split; [reflexivity | apply extended_refl].
  - destruct (extract_post_extends self c posts w) as (p1 & w1 & H1 & E1).
    destruct (IH p1 w1) as (p2 & w2 & H2 & E2).
    exists p2, w2. unfold bind, try_except. rewrite H1. split; [exact H2|].
    eapply extended_trans; eassumption.
Qed.

Lemma requested_app (t1 t2 : list event) :
  requested (t1 ++ t2) = (requested t1 ++ requested t2)%list.
Proof. apply flat_map_app. Qed.

Lemma requested_crawl_events (t : list event) : requested (crawl_events t) = requested t.
Proof.
  induction t as [|e t IH]; [reflexivity|].
  destruct e as [lvl msg | c u | n | p | f x]; simpl; try (rewrite IH; reflexivity).
  destruct (is_page_log msg); simpl; exact IH.
Qed.

Lemma extract_posts_extends (self : MoodleForumScraper) (url : string) (w : World) :
  exists posts w' evs,
    extract_posts_from_discussion self url w = (Ret posts, w')
    /\ trace w' = (trace w ++ evs)%list
    /\ forallb (crawl_step self) evs = true
    /\ requested evs = [url].
Proof.
  destruct (extract_posts_run Server http_get BeautifulSoup self url w)
    as (v0 & w0 & w0' & _ & Hrun & Hcrawl).
  destruct (get_page_content_extends self url w) as (v & w1 & Hget & E1).
  assert (Hposts : exists posts w', extract_posts_from_discussion self url w = (Ret posts, w')
            /\ extended_by (crawl_step self) (trace w) (trace w')).
  { unfold Scraper.extract_posts_from_discussion, bind. rewrite Hget.
    destruct v as [soup|].
    - destruct (posts_loop_extends self (select post_container_selector soup) [] w1)
        as (ps & w2 & Hl & E2).
      exists ps, w2. split; [exact Hl | eapply extended_trans; eassumption].
    - exists [], w1. split; [reflexivity | exact E1]. }
  destruct Hposts as (posts & w' & Hx & evs & Ht & Hall).
  exists posts, w', evs. split; [exact Hx|]. split; [exact Ht|]. split; [exact Hall|].
  rewrite Hx in Hrun. injection Hrun as _ <-.
  rewrite Ht, crawl_events_app in Hcrawl. apply app_inv_head in Hcrawl.
  rewrite <- requested_crawl_events, Hcrawl. reflexivity.
Qed.

Lemma visit_discussions_spec (self : MoodleForumScraper) (links : list string) :
  forall (m : discussions_dict) (w : World),
  exists m' w' evs,
    visit_discussions self links m w = (Ret m', w')
    /\ trace w' = (trace w ++ evs)%list
    /\ forallb (crawl_step self) evs = true
    /\ requested evs = links
    /\ (well_formed m -> well_formed m')
    /\ (forall k, In k (keys m') -> In k (keys m) \/ In k links).
Proof.
  induction links as [|u rest IH]; intros m w.
  - exists m, w, []. rewrite app_nil_r.
    split; [reflexivity|]. split; [reflexivity|]. split; [reflexivity|].
    split; [reflexivity|]. split; [auto | intros k Hk; left; exact Hk].
  - destruct (extract_posts_extends self u (after w (Log INFO ("Scraping discussion: " ++ u))))
      as (posts & w3 & evs1 & Hx & Ht1 & Hall1 & Hreq1).
    rewrite (visit_discussions_cons Server http_get BeautifulSoup self u rest m w w3 _ Hx).
    destruct (IH (record_posts u posts m) (after w3 (Sleep 1)))
      as (m' & w' & evs2 & Hv & Ht2 & Hall2 & Hreq2 & Hwf & Hkeys).
    exists m', w',
      (Log INFO ("Scraping discussion: " ++ u) :: evs1 ++ Sleep 1 :: evs2)%list.
    split; [exact Hv|]. split.
    { rewrite Ht2. cbn [after trace]. rewrite Ht1. cbn [after trace].
      rewrite <- !app_assoc. reflexivity. }
    split.
    { cbn [forallb crawl_step]. rewrite forallb_app, Hall1. cbn [forallb crawl_step].
      rewrite Hall2. reflexivity. }
    split.
    { cbn [requested flat_map app]. fold (requested (evs1 ++ Sleep 1 :: evs2)).
      rewrite requested_app, Hreq1. cbn [requested flat_map app].
      fold (requested evs2). rewrite Hreq2. reflexivity. }
    split; [intros H; apply Hwf, record_posts_well_formed, H|].
    intros k Hk. destruct (Hkeys k Hk) as [H|H]; [|right; right; exact H].
    apply keys_record_posts in H as [->|H]; [right; left; reflexivity | left; exact H].
Qed.

Lemma scrape_loop_spec (self : MoodleForumScraper) (fuel : nat) :
  forall (page : nat) (m : discussions_dict) (w : World),
  exists r w' evs,
    scrape_loop fuel self page m w = (r, w')
    /\ trace w' = (trace w ++ evs)%list
    /\ forallb (crawl_step self) evs = true
    /\ (forall m' page', r = Ret (m', page') ->
        page <= page'
        /\ (well_formed m -> well_formed m')
        /\ (forall k, In k (keys m') -> In k (keys m) \/ In k (requested evs)))
    /\ (forall e, r = Raise e ->
        exists page' w0 w1 soup a,
          extended_by (crawl_step self) (trace w) (trace w0)
          /\ get_page_content self (index_url self page') w0 = (Ret (Some soup), w1)
          /\ get_discussion_links self soup w1 = (Raise e, w')
          /\ In a (select discussion_link_selector soup)
          /\ urljoin (base_url self) (get a "href") = inl e).
Proof.
  induction fuel as [|fuel IH]; intros page m w.
  - exists OutOfFuel, w, []. rewrite app_nil_r.
    split; [reflexivity|]. split; [reflexivity|]. split; [reflexivity|].
    split; discriminate.
  - cbn [Scraper.scrape_loop]. unfold bind at 1. rewrite log_run.
    set (page_log := Log INFO ("Scraping page " ++ PyStr.str_of_nat page)).
    destruct (get_page_content_extends self (index_url self page) (after w page_log))
      as (v & w1 & Hget & evs1 & Ht1 & Hall1).
    unfold bind at 1. rewrite Hget. cbn [after trace] in Ht1.
    destruct v as [soup|].
    + unfold bind at 1. unfold Scraper.get_discussion_links.
      destruct (discussion_links_loop_spec self (select discussion_link_selector soup) [] w1)
        as (r & w2 & Hl & (evs2 & Ht2 & Hall2) & _ & Hraise & _).
      rewrite Hl.
      assert (Ht12 : trace w2 = (trace w ++ page_log :: evs1 ++ evs2)%list).
      { rewrite Ht2, Ht1, <- !app_assoc. reflexivity. }
      assert (Hall12 : forallb (crawl_step self) (page_log :: evs1 ++ evs2) = true).
      { cbn [forallb crawl_step page_log]. rewrite forallb_app, Hall1, Hall2. reflexivity. }
      destruct r as [[|u rest] | e | ].
      * exists (Ret (m, page)), w2, (page_log :: evs1 ++ evs2)%list.
        split; [reflexivity|]. split; [exact Ht12|]. split; [exact Hall12|].
        split; [|discriminate].
        intros m' page' H. injection H as <- <-.
        split; [apply Nat.le_refl|]. split; [auto | intros k Hk; left; exact Hk].
      * destruct (visit_discussions_spec self (u :: rest) m w2)
          as (m1 & w3 & evs3 & Hv & Ht3 & Hall3 & Hreq3 & Hwf3 & Hkeys3).
        unfold bind at 1. rewrite Hv.
        destruct (IH (page + 1) m1 w3) as (r' & w' & evs' & Hloop & Ht' & Hall' & Hret' & Hraise').
        exists r', w', ((page_log :: evs1 ++ evs2) ++ evs3 ++ evs')%list.
        split; [exact Hloop|]. split.
        { rewrite Ht', Ht3, Ht12, <- !app_assoc. reflexivity. }
        split.
        { rewrite !forallb_app, Hall12, Hall3, Hall'. reflexivity. }
        split.
        { intros m' page' Hr. destruct (Hret' m' page' Hr) as (Hle & Hwf' & Hkeys').
          split; [lia|]. split; [auto|].
          intros k Hk. rewrite !requested_app, Hreq3.
          destruct (Hkeys' k Hk) as [H|H].
          -- destruct (Hkeys3 k H) as [H1|H1]; [left; exact H1|].
             right. apply in_or_app. right. apply in_or_app. left. exact H1.
          -- right. apply in_or_app. right. apply in_or_app. right. exact H. }
        intros e Hr.
        destruct (Hraise' e Hr) as (page' & w0 & w1' & soup' & a & Hext & Hrest).
        exists page', w0, w1', soup', a. split; [|exact Hrest].
        apply (extended_trans _ _ (trace w3)); [|exact Hext].
        exists ((page_log :: evs1 ++ evs2) ++ evs3)%list. split.
        ++ rewrite Ht3, Ht12, <- !app_assoc. reflexivity.
        ++ rewrite forallb_app, Hall12, Hall3. reflexivity.
      * exists (Raise e), w2, (page_log :: evs1 ++ evs2)%list.
        split; [reflexivity|]. split; [exact Ht12|]. split; [exact Hall12|].
        split; [discriminate|].
        intros e' H. injection H as <-.
        destruct (Hraise e eq_refl) as (a & Ha & Hj).
        exists page, (after w page_log), w1, soup, a.
        split; [apply extended_after; reflexivity|].
        split; [exact Hget|]. split; [exact Hl|]. split; [exact Ha | exact Hj].
      * exists OutOfFuel, w2, (page_log :: evs1 ++ evs2)%list.
        split; [reflexivity|]. split; [exact Ht12|]. split; [exact Hall12|].
        split; discriminate.
    + exists (Ret (m, page)), w1, (page_log :: evs1)%list.
      split; [reflexivity|]. split; [rewrite Ht1, <- app_assoc; reflexivity|].
      split; [cbn [forallb crawl_step page_log]; exact Hall1|].
      split; [|discriminate].
      intros m' page' H. injection H as <- <-.
      split; [apply Nat.le_refl|]. split; [auto | intros k Hk; left; exact Hk].
Qed.

Lemma scrape_forum_spec (self : MoodleForumScraper) (fuel : nat) (w : World) :
  exists r w' evs,
    scrape_forum fuel self w = (r, w')
    /\ trace w' = (trace w ++ evs)%list
    /\ forallb (crawl_step self) evs = true
    /\ (forall m', r = Ret m' ->
        well_formed m' /\ (forall k, In k (keys m') -> In k (requested evs)))
    /\ (forall e, r = Raise e ->
        exists page' w0 w1 soup a,
          extended_by (crawl_step self) (trace w) (trace w0)
          /\ get_page_content self (index_url self page') w0 = (Ret (Some soup), w1)
          /\ get_discussion_links self soup w1 = (Raise e, w')
          /\ In a (select discussion_link_selector soup)
          /\ urljoin (base_url self) (get a "href") = inl e).
Proof.
  destruct (scrape_loop_spec self fuel 0 [] w)
    as (r & w' & evs & Hloop & Ht & Hall & Hret & Hraise).
  unfold Scraper.scrape_forum, bind. rewrite Hloop.
  destruct r as [[m' page'] | e | ].
  - exists (Ret m'), w', evs. split; [reflexivity|]. split; [exact Ht|].
    split; [exact Hall|]. split; [|discriminate].
    intros m'' H. injection H as <-.
    destruct (Hret m' page' eq_refl) as (_ & Hwf & Hkeys). split.
    + apply Hwf. split; constructor.
    + intros k Hk. destruct (Hkeys k Hk) as [[]|H]. exact H.
  - exists (Raise e), w', evs. split; [reflexivity|]. split; [exact Ht|].
    split; [exact Hall|]. split; [discriminate|].
    intros e' H. injection H as <-. apply Hraise. reflexivity.
  - exists OutOfFuel, w', evs. split; [reflexivity|]. split; [exact Ht|].
    split; [exact Hall|]. split; discriminate.
Qed.

(** X1. The mapping returned by [scrape_forum] has no discussion URL twice
    and no discussion with an empty list of posts. *)
Theorem scrape_forum_result_well_formed
  (self : MoodleForumScraper) (fuel : nat) (w w' : World) (m' : discussions_dict) :
  scrape_forum fuel self w = (Ret m', w') ->
  NoDup (keys m') /\ (forall k posts, In (k, posts) m' -> posts <> []).
Proof.
  intros Hrun.
  destruct (scrape_forum_spec self fuel w) as (r & w1 & evs & H & _ & _ & Hret & _).
  rewrite Hrun in H. injection H as <- <-.
  destruct (Hret m' eq_refl) as ([Hk Hv] & _). split; [exact Hk|].
  intros k posts Hin. rewrite Forall_forall in Hv. apply (Hv (k, posts) Hin).
Qed.

(** X2. Every discussion URL in the mapping returned by [scrape_forum] was
    requested during that run. *)
Theorem scrape_forum_keys_were_requested
  (self : MoodleForumScraper) (fuel : nat) (w w' : World) (m' : discussions_dict) :
  scrape_forum fuel self w = (Ret m', w') ->
  exists evs,
    trace w' = (trace w ++ evs)%list /\
    forall k, In k (keys m') -> In k (requested evs).
Proof.
  intros Hrun.
  destruct (scrape_forum_spec self fuel w) as (r & w1 & evs & H & Ht & _ & Hret & _).
  rewrite Hrun in H. injection H as <- <-.
  exists evs. split; [exact Ht|]. apply (Hret m' eq_refl).
Qed.

(** X3. Whatever the pages served and however the crawl ends, [scrape_forum]
    only adds to the trace: the events of the run are log records, requests
    made with the scraper's own session cookie and pauses of one second; it
    never prompts and never writes a file. *)
Theorem scrape_forum_only_logs_requests_and_pauses
  (self : MoodleForumScraper) (fuel : nat) (w : World) :
  exists evs,
    trace (snd (scrape_forum fuel self w)) = (trace w ++ evs)%list /\
    forallb (crawl_step self) evs = true.
Proof.
  destruct (scrape_forum_spec self fuel w) as (r & w1 & evs & H & Ht & Hall & _).
  exists evs. rewrite H. split; [exact Ht | exact Hall].
Qed.

(** X4. [scrape_forum] raises an exception only in this way: an index page
    of the forum was fetched in the course of the run, [get_discussion_links]
    raised the exception on that page, which ended the run there, and the
    exception is the one that [urljoin] raised on the [href] of an anchor of
    that page matching the link selector, the base being the base URL of the
    scraper. *)
Theorem scrape_forum_raises_only_from_urljoin
  (self : MoodleForumScraper) (fuel : nat) (w w' : World) (e : exn) :
  scrape_forum fuel self w = (Raise e, w') ->
  exists page w0 w1 soup a,
    extended_by (crawl_step self) (trace w) (trace w0)
    /\ get_page_content self (index_url self page) w0 = (Ret (Some soup), w1)
    /\ get_discussion_links self soup w1 = (Raise e, w')
    /\ In a (select discussion_link_selector soup)
    /\ urljoin (base_url self) (get a "href") = inl e.
Proof.
  intros Hrun.
  destruct (scrape_forum_spec self fuel w) as (r & w1 & evs & H & _ & _ & _ & Hraise).
  rewrite Hrun in H. injection H as <- <-. apply Hraise. reflexivity.
Qed.

(** X5. When [get_discussion_links] returns, its result is made of the
    non-empty joins of the base URL with the [href] of the matching anchors,
    one per anchor at most and in the order of the page. *)
Theorem get_discussion_links_in_page_order
  (self : MoodleForumScraper) (soup : node) (w w' : World) (links : list string) :
  get_discussion_links self soup w = (Ret links, w') ->
  links = joined_links urljoin (base_url self) (select discussion_link_selector soup)
  /\ length links <= length (select discussion_link_selector soup).
Proof.
  destruct (discussion_links_loop_spec self (select discussion_link_selector soup) [] w)
    as (r & w1 & H & _ & Hret & _).
  unfold Scraper.get_discussion_links. rewrite H.
  intros Heq. injection Heq as -> <-.
  rewrite (Hret links eq_refl). split; [reflexivity|]. simpl.
  generalize (select discussion_link_selector soup). intros l.
  induction l as [|a l IH]; [apply Nat.le_refl|].
  unfold joined_links in *. cbn [flat_map]. rewrite length_app. cbn [length].
  destruct (urljoin (base_url self) (get a "href")) as [e | [u|]]; simpl; try lia.
  destruct (PyStr.truthy u); simpl; lia.
Qed.

(** ** A failed index fetch *)

Lemma fetch_failure_after (self : MoodleForumScraper) (url : string) (w : World)
  (e : event) :
  fetch_failure self url w -> fetch_failure self url (after w e).
Proof.
  intros [x s H | r s H Hst | r s H Hl].
  - eapply Scraper.transport_failure. exact H.
  - eapply Scraper.status_failure; [exact H | exact Hst].
  - eapply Scraper.login_redirect; [exact H | exact Hl].
Qed.

Lemma fetch_failure_none (self : MoodleForumScraper) (url : string) (w : World) :
  fetch_failure self url w ->
  exists w', get_page_content self url w = (Ret None, w')
             /\ crawl_events (trace w')
                = (crawl_events (trace w) ++ [HttpGet (moodle_session self) url])%list.
Proof.
  intros Hfail.
  destruct (get_page_content_cases Server http_get BeautifulSoup self url w)
    as (v & w' & Hrun & Hcase).
  destruct (get_page_content_crawl Server http_get BeautifulSoup self url w)
    as (v2 & w2 & Hrun2 & Hcrawl).
  rewrite Hrun in Hrun2. injection Hrun2 as <- <-.
  exists w'. split; [|exact Hcrawl]. rewrite Hrun. f_equal. f_equal.
  destruct Hcase as [e s H | r s H Hst | r s H Hl | r s e H Hp | r s soup H Hst Hl Hp];
    try reflexivity.
  destruct Hfail as [e' s2 H' | r' s2 H' Hst' | r' s2 H' Hl'];
    rewrite H in H'; try discriminate; injection H' as <- <-; congruence.
Qed.

(** X6. When the fetch of an index page fails (the request raises, the
    status is an HTTP error, or the final URL is a login page), the loop of
    [scrape_forum] ends there without raising: it returns the discussions
    gathered so far, having made that one request and visited nothing; on the
    first page this makes [scrape_forum] return the empty mapping. *)
Theorem failed_index_fetch_ends_the_crawl
  (self : MoodleForumScraper) (fuel page : nat) (m : discussions_dict) (w : World) :
  fetch_failure self (index_url self page) w ->
  exists w',
    scrape_loop (S fuel) self page m w = (Ret (m, page), w') /\
    crawl_events (trace w') = (crawl_events (trace w) ++ page_events self page [])%list /\
    (page = 0 -> m = [] -> scrape_forum (S fuel) self w = (Ret [], w')).
Proof.
  intros Hfail.
  destruct (fetch_failure_none self (index_url self page)
              (after w (Log INFO ("Scraping page " ++ PyStr.str_of_nat page)))
              (fetch_failure_after _ _ _ _ Hfail)) as (w' & Hget & Hcrawl).
  assert (Hloop : scrape_loop (S fuel) self page m w = (Ret (m, page), w')).
  { cbn [Scraper.scrape_loop]. unfold bind at 1. rewrite log_run.
    unfold bind at 1. rewrite Hget. reflexivity. }
  exists w'. split; [exact Hloop|]. split.
  - rewrite Hcrawl, crawl_events_page_log, <- app_assoc. reflexivity.
  - intros -> ->. unfold Scraper.scrape_forum, bind. rewrite Hloop. reflexivity.
Qed.

(** ** Merging the forums *)

Lemma dict_get_absent (k : string) (d : discussions_dict) :
  ~ In k (keys d) -> dict_get k d = None.
Proof.
  induction d as [|[k0 v0] d IH]; simpl; intros H; [reflexivity|].
  destruct (String.eqb k k0) eqn:E.
  - apply String.eqb_eq in E. subst. exfalso. apply H. left. reflexivity.
  - apply IH. intros Hin. apply H. right. exact Hin.
Qed.

Lemma dict_update_cons (d : discussions_dict) (k : string) (v : list ForumPost)
  (other : discussions_dict) :
  dict_update d ((k, v) :: other) = dict_update (dict_set k v d) other.
Proof. reflexivity. Qed.

(** X7. [all_discussions.update(discussions)], by which [main] merges the
    forums, is last write wins: a URL of [discussions] gets the posts found
    there, whatever was recorded before, and every other URL keeps its
    posts. *)
Theorem dict_update_last_write_wins
  (d other : discussions_dict) (k : string) :
  NoDup (keys other) ->
  dict_get k (dict_update d other)
  = match dict_get k other with
    | Some posts => Some posts
    | None => dict_get k d
    end.
Proof.
  revert d. induction other as [|[k1 v1] other IH]; intros d Hnd; [reflexivity|].
  cbn [keys map fst] in Hnd. inversion Hnd as [|? ? Hnotin Hnd']; subst.
  rewrite dict_update_cons, (IH _ Hnd'). cbn [dict_get].
  destruct (String.eqb k k1) eqn:E.
  - apply String.eqb_eq in E. subst k1.
    rewrite (dict_get_absent k other Hnotin). apply dict_get_set.
  - destruct (dict_get k other); [reflexivity|].
    apply dict_get_set_other. intros ->. rewrite String.eqb_refl in E. discriminate.
Qed.

Lemma dict_update_well_formed (other : discussions_dict) :
  forall d,
    well_formed d -> Forall (fun kv => snd kv <> []) other ->
    well_formed (dict_update d other).
Proof.
  induction other as [|[k v] other IH]; intros d Hd Ho; [exact Hd|].
  inversion Ho as [|? ? Hv Ho']; subst. rewrite dict_update_cons. apply IH; [|exact Ho'].
  destruct Hd as [Hk Hvals]. split.
  - apply dict_set_NoDup. exact Hk.
  - apply dict_set_values; [exact Hv | exact Hvals].
Qed.

(** ** The driver *)

Lemma file_writes_app (t1 t2 : list event) :
  file_writes (t1 ++ t2) = (file_writes t1 ++ file_writes t2)%list.
Proof. apply filter_app. Qed.

Lemma file_writes_after (w : World) (e : event) :
  is_file_write e = false -> file_writes (trace (after w e)) = file_writes (trace w).
Proof.
  intros H. cbn [after trace]. rewrite file_writes_app. simpl. rewrite H.
  apply app_nil_r.
Qed.

Lemma file_writes_crawl (self : MoodleForumScraper) (evs : list event) :
  forallb (crawl_step self) evs = true -> file_writes evs = [].
Proof.
  induction evs as [|e evs IH]; [reflexivity|]. cbn [forallb]. intros H.
  apply andb_true_iff in H as [He Hevs].
  destruct e; simpl in *; try discriminate; apply IH; exact Hevs.
Qed.

Lemma forum_url_loop_spec (fuel : nat) (ms : string) (stdin : list string) :
  forall (m : discussions_dict) (w : World),
  exists r w',
    forum_url_loop fuel ms stdin m w = (r, w')
    /\ file_writes (trace w') = file_writes (trace w)
    /\ (forall m' rest, r = Ret (m', rest) -> well_formed m -> well_formed m').
Proof.
  induction stdin as [|forum_url stdin IH]; intros m w.
  - eexists; eexists. split; [reflexivity|]. split; [|discriminate].
    apply file_writes_after. reflexivity.
  - cbn [Scraper.forum_url_loop]. unfold bind at 1. unfold emit at 1.
    destruct forum_url as [|c forum_url].
    + eexists; eexists. split; [reflexivity|].
      split; [apply file_writes_after; reflexivity|].
      intros m' rest H. injection H as <- <-. auto.
    + cbn [PyStr.truthy negb].
      destruct (Scraper.valid_forum_url (String c forum_url)); cbn [negb].
      * unfold bind at 1. rewrite log_run.
        unfold bind at 1. unfold Scraper.init.
        unfold bind at 1. rewrite log_run.
        unfold bind at 1. rewrite log_run.
        unfold ret at 1. unfold bind at 1.
        match goal with
        | |- context [scrape_forum fuel ?sc ?w0] =>
            destruct (scrape_forum_spec sc fuel w0)
              as (r & w1 & evs & Hrun & Ht & Hall & Hret & _);
            assert (Hfw : file_writes (trace w1) = file_writes (trace w))
        end.
        { rewrite Ht, file_writes_app, (file_writes_crawl _ _ Hall), app_nil_r.
          rewrite !file_writes_after by reflexivity. reflexivity. }
        rewrite Hrun. destruct r as [[|kv d] | e | ].
        -- repeat (unfold bind at 1; rewrite log_run).
           match goal with
           | |- context [forum_url_loop fuel ms stdin m ?w2] =>
               destruct (IH m w2) as (r' & w' & Hloop & Hfw' & Hwf')
           end.
           exists r', w'. split; [exact Hloop|]. split; [|exact Hwf'].
           rewrite Hfw', !file_writes_after by reflexivity. exact Hfw.
        -- destruct (IH (dict_update m (kv :: d)) w1) as (r' & w' & Hloop & Hfw' & Hwf').
           exists r', w'. split; [exact Hloop|]. split; [congruence|].
           intros m' rest Hr Hm. apply (Hwf' m' rest Hr).
           destruct (Hret (kv :: d) eq_refl) as ([_ Hvals] & _).
           apply dict_update_well_formed; assumption.
        -- exists (Raise e), w1. split; [reflexivity|]. split; [exact Hfw | discriminate].
        -- exists OutOfFuel, w1. split; [reflexivity|]. split; [exact Hfw | discriminate].
      * unfold bind at 1. rewrite log_run.
        match goal with
        | |- context [forum_url_loop fuel ms stdin m ?w2] =>
            destruct (IH m w2) as (r' & w' & Hloop & Hfw' & Hwf')
        end.
        exists r', w'. split; [exact Hloop|]. split; [|exact Hwf'].
        rewrite Hfw', !file_writes_after by reflexivity. reflexivity.
Qed.

Lemma main_spec (fuel : nat) (stdin : list string) (OUT_FILE : option string)
  (w : World) :
  exists r w',
    main fuel stdin OUT_FILE w = (r, w')
    /\ (r = Ret tt \/ r = OutOfFuel)
    /\ (file_writes (trace w') = file_writes (trace w)
        \/ exists d cookie consumed rest w1,
             d <> [] /\ well_formed d
             /\ cookie <> ""
             /\ stdin = cookie :: (consumed ++ "" :: rest)%list
             /\ Forall (fun line => line <> "") consumed
             /\ forum_url_loop fuel cookie (consumed ++ "" :: rest) []
                  (after w (Prompt "Enter your MoodleSession cookie value: "))
                = (Ret (d, rest), w1)
             /\ open_error
                  (output_path
                     match OUT_FILE with
                     | Some f => f
                     | None => Scraper.DEFAULT_OUTPUT_FILE
                     end) = None
             /\ file_writes (trace w')
                = (file_writes (trace w)
                   ++ [FileWrite
                         (output_path
                            match OUT_FILE with
                            | Some f => f
                            | None => Scraper.DEFAULT_OUTPUT_FILE
                            end)
                         (Scraper.export_text d)])%list).
Proof.
  unfold Scraper.main, try_except, Scraper.input.
  destruct stdin as [|cookie stdin].
  - eexists; eexists. split; [reflexivity|]. split; [left; reflexivity|].
    left. cbn [fst snd]. rewrite !file_writes_after by reflexivity. reflexivity.
  - unfold bind at 1. unfold bind at 1. unfold emit at 1. unfold ret at 1.
    destruct cookie as [|c cookie]; cbn [PyStr.truthy negb].
    + rewrite log_run. eexists; eexists. split; [reflexivity|].
      split; [left; reflexivity|].
      left. rewrite !file_writes_after by reflexivity. reflexivity.
    + unfold bind at 1.
      destruct (forum_url_loop_spec fuel (String c cookie) stdin []
                  (after w (Prompt "Enter your MoodleSession cookie value: ")))
        as (r & w1 & Hloop & Hfw & Hwf).
      rewrite Hloop. rewrite file_writes_after in Hfw by reflexivity.
      destruct r as [[[|kv d] rest] | e | ]; cbn [fst].
      * rewrite log_run. eexists; eexists. split; [reflexivity|].
        split; [left; reflexivity|].
        left. rewrite file_writes_after by reflexivity. exact Hfw.
      * unfold bind at 1. unfold Scraper.init.
        unfold bind at 1. rewrite log_run. unfold bind at 1. rewrite log_run.
        unfold ret at 1. unfold bind at 1. unfold Scraper.open_and_save.
        unfold bind at 1. unfold Scraper.open_for_writing.
        destruct (open_error
                    (output_path
                       match OUT_FILE with
                       | Some f => f
                       | None => Scraper.DEFAULT_OUTPUT_FILE
                       end)) as [e|] eqn:Hopen.
        { unfold raise at 1. rewrite log_run. eexists; eexists.
          split; [reflexivity|]. split; [left; reflexivity|].
          left. rewrite !file_writes_after by reflexivity. exact Hfw. }
        unfold ret at 1. unfold Scraper.save_to_file.
        unfold bind at 1. unfold emit at 1. rewrite log_run.
        unfold bind at 1. rewrite log_run. rewrite log_run.
        eexists; eexists. split; [reflexivity|]. split; [left; reflexivity|].
        right.
        destruct (forum_url_loop_returns Server http_get BeautifulSoup urljoin fuel
                    (String c cookie) stdin [] (kv :: d) _ w1 rest Hloop)
          as (consumed & Hstdin & Hnonempty).
        exists (kv :: d), (String c cookie), consumed, rest, w1.
        split; [discriminate|]. split; [apply (Hwf _ _ eq_refl); split; constructor|].
        split; [discriminate|]. split; [rewrite Hstdin; reflexivity|].
        split; [exact Hnonempty|].
        split; [rewrite <- Hstdin; exact Hloop|]. split; [reflexivity|].
        rewrite !file_writes_after by reflexivity.
        unfold after at 1. cbn [trace]. rewrite file_writes_app.
        rewrite !file_writes_after by reflexivity. rewrite Hfw. reflexivity.
      * rewrite log_run. eexists; eexists. split; [reflexivity|].
        split; [left; reflexivity|].
        left. rewrite file_writes_after by reflexivity. exact Hfw.
      * eexists; eexists. split; [reflexivity|]. split; [right; reflexivity|].
        left. exact Hfw.
Qed.

(** X8. [main] lets no exception out: whatever is typed and whatever the
    server answers, it returns normally, unless a crawl never ends. *)
Theorem main_raises_nothing
  (fuel : nat) (stdin : list string) (OUT_FILE : option string) (w : World) :
  fst (main fuel stdin OUT_FILE w) = Ret tt \/
  fst (main fuel stdin OUT_FILE w) = OutOfFuel.
Proof.
  destruct (main_spec fuel stdin OUT_FILE w) as (r & w' & H & Hr & _).
  rewrite H. exact Hr.
Qed.

(** X9. [main] writes the export file at most once.  When it writes it,
    the operator gave a non-empty session cookie and then lines of which the
    first empty one ended the list of forums, the URL loop returned a
    non-empty mapping, with no URL twice and no discussion without posts,
    the file at the path that [pathlib] makes of the output directory and
    [OUT_FILE] (the default name when it is unset) could be opened for
    writing, and the text written to it is the export of that mapping.  In
    every other run (empty cookie, input ending before the empty line,
    nothing scraped, an exception in a crawl, a file that cannot be opened)
    no file is written. *)
Theorem main_writes_one_file_of_scraped_discussions
  (fuel : nat) (stdin : list string) (OUT_FILE : option string) (w : World) :
  let path := output_path match OUT_FILE with
                          | Some f => f
                          | None => Scraper.DEFAULT_OUTPUT_FILE
                          end in
  file_writes (trace (snd (main fuel stdin OUT_FILE w))) = file_writes (trace w) \/
  exists d cookie consumed rest w1,
    d <> [] /\ well_formed d /\ cookie <> "" /\
    stdin = cookie :: (consumed ++ "" :: rest)%list /\
    Forall (fun line => line <> "") consumed /\
    forum_url_loop fuel cookie (consumed ++ "" :: rest) []
      (after w (Prompt "Enter your MoodleSession cookie value: "))
    = (Ret (d, rest), w1) /\
    open_error path = None /\
    file_writes (trace (snd (main fuel stdin OUT_FILE w)))
    = (file_writes (trace w) ++ [FileWrite path (Scraper.export_text d)])%list.
Proof.
  destruct (main_spec fuel stdin OUT_FILE w) as (r & w' & H & _ & Hw).
  cbv zeta. rewrite H. exact Hw.
Qed.

Lemma crawl_events_after_other (w : World) (e : event) :
  crawl_event e = false -> crawl_events (trace (after w e)) = crawl_events (trace w).
Proof.
  intros H. cbn [after trace]. rewrite crawl_events_app. simpl. rewrite H.
  apply app_nil_r.
Qed.

(** X10. In the loop of [main], a forum whose first index fetch fails (for
    instance because the session cookie is no longer valid) costs that one
    request: the mapping gathered so far is kept as it is and the loop goes
    on with the next line. *)
Theorem forum_with_failed_fetch_is_skipped
  (fuel : nat) (ms forum_url : string) (stdin : list string)
  (m : discussions_dict) (w : World) :
  let self := {| base_url := forum_url; moodle_session := ms |} in
  Scraper.valid_forum_url forum_url = true ->
  fetch_failure self (index_url self 0) w ->
  exists w',
    forum_url_loop (S fuel) ms (forum_url :: stdin) m w
    = forum_url_loop (S fuel) ms stdin m w' /\
    crawl_events (trace w') = (crawl_events (trace w) ++ page_events self 0 [])%list.
Proof.
  intros self Hvalid Hfail.
  assert (Hne : PyStr.truthy forum_url = true).
  { destruct forum_url; [discriminate Hvalid | reflexivity]. }
  cbn [Scraper.forum_url_loop]. unfold bind at 1. unfold emit at 1.
  rewrite Hne, Hvalid. cbn [negb].
  unfold bind at 1. rewrite log_run.
  unfold bind at 1. unfold Scraper.init.
  unfold bind at 1. rewrite log_run. unfold bind at 1. rewrite log_run.
  unfold ret at 1. unfold bind at 1. fold self.
  match goal with
  | |- context [scrape_forum (S fuel) self ?w0] => set (w0' := w0)
  end.
  assert (Hfail0 : fetch_failure self (index_url self 0)
                     (after w0' (Log INFO ("Scraping page " ++ PyStr.str_of_nat 0)))).
  { unfold w0'. repeat apply fetch_failure_after. exact Hfail. }
  destruct (fetch_failure_none self (index_url self 0) _ Hfail0) as (w1 & Hget & Hcrawl).
  assert (Hrun : scrape_forum (S fuel) self w0' = (Ret [], w1)).
  { unfold Scraper.scrape_forum. cbn [Scraper.scrape_loop].
    unfold bind at 1. unfold bind at 1. rewrite log_run.
    unfold bind at 1. rewrite Hget. reflexivity. }
  rewrite Hrun.
  repeat (unfold bind at 1; rewrite log_run).
  eexists. split; [reflexivity|].
  rewrite !crawl_events_after_other by reflexivity.
  rewrite Hcrawl, crawl_events_page_log. unfold w0'.
  rewrite !crawl_events_after_other by reflexivity.
  rewrite <- app_assoc. reflexivity.
Qed.

(** ** Login pages *)

Lemma lower_app (a b : string) : PyStr.lower (a ++ b) = PyStr.lower a ++ PyStr.lower b.
Proof. induction a as [|c a IH]; simpl; [reflexivity | rewrite IH; reflexivity]. Qed.

Lemma prefix_app (p s : string) : String.prefix p (p ++ s) = true.
Proof.
  induction p as [|c p IH]; simpl.
  - destruct s; reflexivity.
  - destruct (ascii_dec c c) as [_|Hne]; [exact IH | congruence].
Qed.

Lemma contains_app (needle a b : string) :
  PyStr.contains needle (a ++ needle ++ b) = true.
Proof.
  induction a as [|c a IH].
  - cbn [append]. pose proof (prefix_app needle b) as H.
    destruct (needle ++ b); cbn [PyStr.contains]; rewrite H; reflexivity.
  - cbn [append PyStr.contains]. rewrite IH. apply orb_true_r.
Qed.

(** X11. The login test looks for [login] anywhere in the final URL and in
    any letter case: a response whose URL holds it, in the path or in the
    query string, is turned down with [None] whatever its status and its
    body. *)
Theorem login_anywhere_in_url_fails_the_fetch
  (self : MoodleForumScraper) (url : string) (w : World)
  (r : Response) (s' : Server) (before word after_ : string) :
  http_get (moodle_session self) url (server w) = (inr r, s') ->
  resp_url r = before ++ word ++ after_ ->
  PyStr.lower word = "login" ->
  exists w', get_page_content self url w = (Ret None, w').
Proof.
  intros Hget Hurl Hword.
  assert (Hlogin : is_login_url (resp_url r) = true).
  { unfold is_login_url. rewrite Hurl, !lower_app, Hword. apply contains_app. }
  destruct (fetch_failure_none self url w) as (w' & H & _).
  - eapply Scraper.login_redirect; [exact Hget | exact Hlogin].
  - exists w'. exact H.
Qed.

(** ** The exported text *)

(** X12. The exported text is made of one block per discussion, in the order
    of the mapping: the export of two mappings put end to end is the export
    of the first followed by the export of the second, and the empty mapping
    gives the empty text. *)
Theorem export_text_app (d1 d2 : discussions_dict) :
  Scraper.export_text (d1 ++ d2)%list
  = Scraper.export_text d1 ++ Scraper.export_text d2 /\
  Scraper.export_text [] = "".
Proof.
  split; [|reflexivity].
  unfold Scraper.export_text. rewrite flat_map_app. apply concat_app.
Qed.

(** ** The fields of a post *)

Lemma lstrip_clean (s : string) : starts_clean s -> PyStr.lstrip s = s.
Proof. destruct s as [|c s]; simpl; [reflexivity | intros ->; reflexivity]. Qed.

Lemma lstrip_starts_clean (s : string) : starts_clean (PyStr.lstrip s).
Proof.
  induction s as [|c s IH]; simpl; [exact I|].
  destruct (PyStr.is_space c) eqn:E; [exact IH | exact E].
Qed.

Lemma rstrip_idempotent (s : string) : PyStr.rstrip (PyStr.rstrip s) = PyStr.rstrip s.
Proof.
  induction s as [|c s IH]; [reflexivity|].
  cbn [PyStr.rstrip]. destruct (PyStr.rstrip s) as [|c' r] eqn:E.
  - destruct (PyStr.is_space c) eqn:Ec; [reflexivity|].
    cbn [PyStr.rstrip]. rewrite Ec. reflexivity.
  - remember (String c' r) as t eqn:Et.
    cbn [PyStr.rstrip]. rewrite IH. subst t. reflexivity.
Qed.

Lemma rstrip_starts_clean (s : string) : starts_clean s -> starts_clean (PyStr.rstrip s).
Proof.
  destruct s as [|c s]; [auto|]. cbn [starts_clean PyStr.rstrip]. intros Hc.
  destruct (PyStr.rstrip s); [rewrite Hc|]; exact Hc.
Qed.

Lemma rstrip_app (a b : string) :
  PyStr.rstrip b <> "" -> PyStr.rstrip (a ++ b) = a ++ PyStr.rstrip b.
Proof.
  intros Hb. induction a as [|c a IH]; [reflexivity|].
  cbn [append PyStr.rstrip]. rewrite IH.
  destruct (a ++ PyStr.rstrip b) as [|c' r] eqn:E; [|reflexivity].
  destruct a; simpl in E; [congruence | discriminate].
Qed.

Lemma concat_trimmed (l : list string) :
  Forall (fun x => x <> "" /\ starts_clean x /\ PyStr.rstrip x = x) l ->
  starts_clean (String.concat "" l)
  /\ PyStr.rstrip (String.concat "" l) = String.concat "" l.
Proof.
  induction l as [|x l IH]; intros H; [split; [exact I | reflexivity]|].
  inversion H as [|? ? (Hne & Hs & Hr) Hl]; subst.
  destruct (IH Hl) as (_ & IHr). rewrite concat_cons. split.
  - destruct x; [congruence | exact Hs].
  - destruct (String.concat "" l) as [|c rest] eqn:E.
    + rewrite append_nil_r. exact Hr.
    + rewrite rstrip_app; rewrite IHr; [reflexivity | discriminate].
Qed.

Lemma get_text_strip_trimmed (n : node) : trimmed (get_text_strip n).
Proof.
  unfold trimmed, PyStr.strip, get_text_strip.
  destruct (concat_trimmed (filter PyStr.truthy (map PyStr.strip (all_strings n))))
    as (Hs & Hr).
  - apply Forall_forall. intros x Hx. apply filter_In in Hx as [Hin Hx].
    apply in_map_iff in Hin as (y & <- & _).
    split; [intros E; rewrite E in Hx; discriminate|].
    unfold PyStr.strip. split.
    + apply rstrip_starts_clean, lstrip_starts_clean.
    + apply rstrip_idempotent.
  - rewrite (lstrip_clean _ Hs). exact Hr.
Qed.

Lemma trimmed_starts_clean (s : string) : trimmed s -> starts_clean s.
Proof.
  unfold trimmed, PyStr.strip. intros H. rewrite <- H.
  apply rstrip_starts_clean, lstrip_starts_clean.
Qed.

Lemma trimmed_rstrip (s : string) : trimmed s -> PyStr.rstrip s = s.
Proof.
  unfold trimmed, PyStr.strip. intros H. rewrite <- H at 1.
  rewrite rstrip_idempotent. exact H.
Qed.

Lemma rstrip_last (front : string) (c : ascii) :
  PyStr.rstrip (front ++ String c "") = front ++ String c "" -> PyStr.is_space c = false.
Proof.
  induction front as [|a front IH]; cbn [append PyStr.rstrip].
  - destruct (PyStr.is_space c); [discriminate | reflexivity].
  - destruct (PyStr.rstrip (front ++ String c "")) as [|c' r] eqn:E.
    + destruct (PyStr.is_space a); [discriminate|].
      intros H. injection H as H. destruct front; discriminate H.
    + intros H. injection H as H. apply IH. exact H.
Qed.

Lemma is_space_codes (c : ascii) :
  In (nat_of_ascii c) [9; 10; 11; 12; 13; 28; 29; 30; 31; 32; 133; 160] ->
  PyStr.is_space c = true.
Proof.
  unfold PyStr.is_space. intros H.
  repeat (destruct H as [<-|H]; [reflexivity|]). destruct H.
Qed.

(** X13. The title, the content and the author of every post returned by
    [extract_posts_from_discussion] are left as they are by [str.strip]:
    none starts or ends with a white space character, that is a TAB, LF, VT,
    FF or CR, one of the separators U+001C-U+001F, a space, a NEL (U+0085)
    or a no-break space (U+00A0). *)
Theorem extracted_fields_are_trimmed
  (self : MoodleForumScraper) (url : string) (w w' : World)
  (posts : list ForumPost) (p : ForumPost) :
  extract_posts_from_discussion self url w = (Ret posts, w') ->
  In p posts ->
  forall field, In field [title p; content p; author p] ->
    trimmed field /\
    forall c, In (nat_of_ascii c) [9; 10; 11; 12; 13; 28; 29; 30; 31; 32; 133; 160] ->
      (forall rest, field <> String c rest) /\
      (forall front, field <> front ++ String c "").
Proof.
  intros Hrun Hin field Hfield.
  destruct (extract_posts_run Server http_get BeautifulSoup self url w)
    as (v & w1 & w2 & _ & Hrun' & _).
  rewrite Hrun in Hrun'. injection Hrun' as -> _.
  destruct v as [soup|]; [|contradiction].
  destruct (posts_of_in _ _ Hin) as (c & _ & pc & t & a & d & _ & _ & _ & _ & ->).
  cbn [title content author] in Hfield.
  assert (Ht : trimmed field).
  { destruct Hfield as [<-|[<-|[<-|[]]]]; apply get_text_strip_trimmed. }
  split; [exact Ht|]. intros ch Hch. apply is_space_codes in Hch. split.
  - intros rest E. apply trimmed_starts_clean in Ht. rewrite E in Ht.
    cbn [starts_clean] in Ht. congruence.
  - intros front E. apply trimmed_rstrip in Ht. rewrite E in Ht.
    apply rstrip_last in Ht. congruence.
Qed.

(** ** The preview of a content in the log *)

Lemma take_all (n : nat) : forall s, String.length s <= n -> PyStr.take n s = s.
Proof.
  unfold PyStr.take. induction n as [|n IH]; intros [|c s]; simpl; intros H;
    try reflexivity; try lia.
  rewrite IH; [reflexivity | lia].
Qed.

Lemma take_min (n : nat) :
  forall s, String.length (PyStr.take n s) = Nat.min n (String.length s).
Proof.
  unfold PyStr.take. induction n as [|n IH]; intros [|c s]; simpl; try reflexivity.
  rewrite IH. reflexivity.
Qed.

Lemma take_prefix (n : nat) : forall s, String.prefix (PyStr.take n s) s = true.
Proof.
  unfold PyStr.take. induction n as [|n IH]; intros [|c s]; simpl; try reflexivity.
  destruct (ascii_dec c c) as [_|Hne]; [apply IH | congruence].
Qed.

(** X14. A container with all its elements is logged with five records and
    nothing else happens: the last record is [Content: ] followed by the
    first hundred characters of the content of the post (the whole content
    when it has a hundred characters or less) and three dots. *)
Theorem post_is_logged_with_content_preview
  (c : node) (p : ForumPost) (posts : list ForumPost) (w : World) :
  post_of_container c = Some p ->
  exists shown,
    Scraper.extract_post Server c posts w
    = (Ret (posts ++ [p])%list,
       {| server := server w;
          trace := (trace w
                    ++ [Log INFO (nl ++ "Post found:");
                        Log INFO ("Title: " ++ title p);
                        Log INFO ("Author: " ++ author p);
                        Log INFO ("Date: " ++ date p);
                        Log INFO ("Content: " ++ shown ++ "...")])%list |}) /\
    String.prefix shown (content p) = true /\
    String.length shown = Nat.min 100 (String.length (content p)) /\
    (String.length (content p) <= 100 -> shown = content p).
Proof.
  intros Hp. exists (PyStr.take 100 (content p)).
  split; [|split; [apply take_prefix | split; [apply take_min | apply take_all]]].
  revert Hp.
  unfold Scraper.extract_post, post_of_container, find_title, find_author_link,
    find_date, find_in_header, find_content, find_header.
  destruct (select_one post_content_selector c) as [pc|]; [|discriminate].
  destruct (select_one header_selector c) as [h|]; [|discriminate].
  destruct (select_one title_selector h) as [t|]; [|discriminate].
  destruct (select_one author_link_selector h) as [a|]; [|discriminate].
  destruct (select_one time_selector h) as [d|]; [|discriminate].
  intros Hp. injection Hp as <-.
  unfold bind, log, emit, ret, after, content_preview. cbn [server trace content].
  rewrite <- !app_assoc. reflexivity.
Qed.

End MoreProperties.

(** * The small forums, checked further *)

(** The mapping scraped from the small forum. *)
Lemma scrape_forum_result_well_formed_witness :
  exists m' w',
    Scraper.scrape_forum unit Demo.static_get Demo.parse Demo.urljoin 2 Demo.self
      Demo.start = (Ret m', w') /\
    NoDup (keys m') /\ (forall k posts, In (k, posts) m' -> posts <> []).
Proof.
  assert (Hrun : Scraper.scrape_forum unit Demo.static_get Demo.parse Demo.urljoin 2
                   Demo.self Demo.start
                 = (Ret [(Demo.discussion_1, [Demo.first_post; Demo.third_post])],
                    snd (Scraper.scrape_forum unit Demo.static_get Demo.parse
                           Demo.urljoin 2 Demo.self Demo.start))).
  { vm_compute. reflexivity. }
  eexists. eexists. split; [exact Hrun|].
  exact (scrape_forum_result_well_formed unit Demo.static_get Demo.parse Demo.urljoin
           Demo.self 2 Demo.start _ _ Hrun).
Defined.

Lemma scrape_forum_keys_were_requested_witness :
  exists m' w' evs,
    Scraper.scrape_forum unit Demo.static_get Demo.parse Demo.urljoin 2 Demo.self
      Demo.start = (Ret m', w') /\
    trace w' = (trace Demo.start ++ evs)%list /\
    forall k, In k (keys m') -> In k (requested evs).
Proof.
  assert (Hrun : Scraper.scrape_forum unit Demo.static_get Demo.parse Demo.urljoin 2
                   Demo.self Demo.start
                 = (Ret [(Demo.discussion_1, [Demo.first_post; Demo.third_post])],
                    snd (Scraper.scrape_forum unit Demo.static_get Demo.parse
                           Demo.urljoin 2 Demo.self Demo.start))).
  { vm_compute. reflexivity. }
  destruct (scrape_forum_keys_were_requested unit Demo.static_get Demo.parse
              Demo.urljoin Demo.self 2 Demo.start _ _ Hrun) as (evs & H).
  eexists. eexists. exists evs. split; [exact Hrun | exact H].
Defined.

(** On the forum with the broken link, the exception of [urljoin] comes out
    of [scrape_forum]. *)
Lemma scrape_forum_raises_only_from_urljoin_witness :
  exists w',
    Scraper.scrape_forum bool Demo.expiring_get Broken.parse Broken.urljoin 3
      Demo.self Demo.fresh_session = (Raise (Exception "Invalid IPv6 URL"), w') /\
    exists page w0 w1 soup a,
      Scraper.get_page_content bool Demo.expiring_get Broken.parse Demo.self
        (index_url Demo.self page) w0 = (Ret (Some soup), w1) /\
      In a (select discussion_link_selector soup) /\
      Broken.urljoin (base_url Demo.self) (get a "href")
      = inl (Exception "Invalid IPv6 URL").
Proof.
  assert (Hrun : Scraper.scrape_forum bool Demo.expiring_get Broken.parse Broken.urljoin
                   3 Demo.self Demo.fresh_session
                 = (Raise (Exception "Invalid IPv6 URL"),
                    snd (Scraper.scrape_forum bool Demo.expiring_get Broken.parse
                           Broken.urljoin 3 Demo.self Demo.fresh_session))).
  { vm_compute. reflexivity. }
  eexists. split; [exact Hrun|].
  destruct (scrape_forum_raises_only_from_urljoin bool Demo.expiring_get Broken.parse
              Broken.urljoin Demo.self 3 Demo.fresh_session _ _ Hrun)
    as (page & w0 & w1 & soup & a & _ & Hget & _ & Ha & Hjoin).
  exists page, w0, w1, soup, a. split; [exact Hget|]. split; [exact Ha | exact Hjoin].
Defined.

(** The two links of index page 0, in the order of the page. *)
Lemma get_discussion_links_in_page_order_witness :
  Scraper.get_discussion_links unit Demo.urljoin Demo.self Demo.index_0 Demo.start
  = (Ret [Demo.discussion_1; Demo.discussion_2],
     snd (Scraper.get_discussion_links unit Demo.urljoin Demo.self Demo.index_0
            Demo.start)) /\
  [Demo.discussion_1; Demo.discussion_2]
  = joined_links Demo.urljoin (base_url Demo.self)
      (select discussion_link_selector Demo.index_0).
Proof.
  assert (Hrun : Scraper.get_discussion_links unit Demo.urljoin Demo.self Demo.index_0
                   Demo.start
                 = (Ret [Demo.discussion_1; Demo.discussion_2],
                    snd (Scraper.get_discussion_links unit Demo.urljoin Demo.self
                           Demo.index_0 Demo.start))).
  { vm_compute. reflexivity. }
  split; [exact Hrun|].
  exact (proj1 (get_discussion_links_in_page_order unit Demo.urljoin Demo.self
                  Demo.index_0 Demo.start _ _ Hrun)).
Defined.

(** With an expired session the first index fetch ends on the login page. *)
Lemma failed_index_fetch_ends_the_crawl_witness :
  Scraper.fetch_failure bool Demo.expiring_get Demo.self (index_url Demo.self 0)
    Broken.expired /\
  exists w',
    Scraper.scrape_forum bool Demo.expiring_get Demo.parse Demo.urljoin 1 Demo.self
      Broken.expired = (Ret [], w').
Proof.
  assert (H : Scraper.fetch_failure bool Demo.expiring_get Demo.self
                (index_url Demo.self 0) Broken.expired).
  { eapply Scraper.login_redirect; reflexivity. }
  split; [exact H|].
  destruct (failed_index_fetch_ends_the_crawl bool Demo.expiring_get Demo.parse
              Demo.urljoin Demo.self 0 0 [] Broken.expired H) as (w' & _ & _ & Hforum).
  exists w'. exact (Hforum eq_refl eq_refl).
Defined.

(** Merging the mapping of a second forum that has one URL in common. *)
Lemma dict_update_last_write_wins_witness :
  NoDup (keys Demo.split) /\
  dict_get Demo.discussion_1 (dict_update Demo.merged Demo.split)
  = dict_get Demo.discussion_1 Demo.split.
Proof.
  assert (H : NoDup (keys Demo.split)).
  { constructor; [intros [] | constructor]. }
  split; [exact H|].
  exact (dict_update_last_write_wins Demo.merged Demo.split Demo.discussion_1 H).
Defined.

(** With an expired session the forum is skipped and the empty line that
    follows ends the loop. *)
Lemma forum_with_failed_fetch_is_skipped_witness :
  Scraper.valid_forum_url Demo.forum = true /\
  exists w',
    Scraper.forum_url_loop bool Demo.expiring_get Demo.parse Demo.urljoin 1 "s3cr3t"
      [Demo.forum; ""] Demo.exported Broken.expired
    = Scraper.forum_url_loop bool Demo.expiring_get Demo.parse Demo.urljoin 1 "s3cr3t"
        [""] Demo.exported w'.
Proof.
  split; [reflexivity|].
  assert (H : Scraper.fetch_failure bool Demo.expiring_get
                {| base_url := Demo.forum; moodle_session := "s3cr3t" |}
                (index_url {| base_url := Demo.forum; moodle_session := "s3cr3t" |} 0)
                Broken.expired).
  { eapply Scraper.login_redirect; reflexivity. }
  destruct (forum_with_failed_fetch_is_skipped bool Demo.expiring_get Demo.parse
              Demo.urljoin 0 "s3cr3t" Demo.forum [""] Demo.exported Broken.expired
              eq_refl H) as (w' & Hloop & _).
  exists w'. exact Hloop.
Defined.

(** The login page of the small forum has [login] in its path. *)
Lemma login_anywhere_in_url_fails_the_fetch_witness :
  Demo.login_page = "https://moodle.example/" ++ "login" ++ "/index.php" /\
  exists w',
    Scraper.get_page_content unit Demo.static_get Demo.parse Demo.self
      Demo.discussion_2 Demo.start = (Ret None, w').
Proof.
  split; [reflexivity|].
  exact (login_anywhere_in_url_fails_the_fetch unit Demo.static_get Demo.parse
           Demo.self Demo.discussion_2 Demo.start _ _
           "https://moodle.example/" "login" "/index.php" eq_refl eq_refl eq_refl).
Defined.

(** The first post of the first discussion: its content is written with
    spaces around it in the page. *)
Lemma extracted_fields_are_trimmed_witness :
  In Demo.first_post [Demo.first_post; Demo.third_post] /\
  In (content Demo.first_post)
    [title Demo.first_post; content Demo.first_post; author Demo.first_post] /\
  trimmed (content Demo.first_post).
Proof.
  assert (Hrun : Scraper.extract_posts_from_discussion unit Demo.static_get Demo.parse
                   Demo.self Demo.discussion_1 Demo.start
                 = (Ret [Demo.first_post; Demo.third_post],
                    snd (Scraper.extract_posts_from_discussion unit Demo.static_get
                           Demo.parse Demo.self Demo.discussion_1 Demo.start))).
  { vm_compute. reflexivity. }
  assert (Hin : In Demo.first_post [Demo.first_post; Demo.third_post]).
  { left. reflexivity. }
  assert (Hfield : In (content Demo.first_post)
                      [title Demo.first_post; content Demo.first_post;
                       author Demo.first_post]).
  { right. left. reflexivity. }
  split; [exact Hin|]. split; [exact Hfield|].
  exact (proj1 (extracted_fields_are_trimmed unit Demo.static_get Demo.parse Demo.self
                  Demo.discussion_1 Demo.start _ _ _ Hrun Hin _ Hfield)).
Defined.

(** The first post of the first discussion has a short content, shown whole
    in the log. *)
Lemma post_is_logged_with_content_preview_witness :
  post_of_container Demo.complete_container = Some Demo.first_post /\
  exists shown,
    fst (Scraper.extract_post unit Demo.complete_container [] Demo.start)
    = Ret [Demo.first_post] /\
    String.length shown = Nat.min 100 (String.length (content Demo.first_post)).
Proof.
  assert (H : post_of_container Demo.complete_container = Some Demo.first_post).
  { vm_compute. reflexivity. }
  split; [exact H|].
  destruct (post_is_logged_with_content_preview unit Demo.complete_container
              Demo.first_post [] Demo.start H) as (shown & Hrun & _ & Hlen & _).
  exists shown. split; [rewrite Hrun; reflexivity | exact Hlen].
Defined.

(** The driver on the small forum: the operator gives the cookie, the forum
    URL and an empty line.  The export goes to the default file of the output
    directory; with [OUT_FILE] set to the empty string the path is the
    directory itself, [open] raises, [main] logs the error and no file is
    written. *)
Lemma main_exports_the_small_forum :
  file_writes
    (trace (snd (Scraper.main unit Demo.static_get Demo.parse Demo.urljoin
                   Demo.output_dir Demo.path_join Demo.open_error 2
                   ["s3cr3t"; Demo.forum; ""] None Demo.start)))
  = [FileWrite "/opt/scraper/outputdata/foro_exportado.txt"
       (Scraper.export_text [(Demo.discussion_1, [Demo.first_post; Demo.third_post])])].
Proof. vm_compute. reflexivity. Qed.

Lemma main_cannot_write_to_the_output_directory :
  Scraper.main unit Demo.static_get Demo.parse Demo.urljoin
    Demo.output_dir Demo.path_join Demo.open_error 2
    ["s3cr3t"; Demo.forum; ""] (Some "") Demo.start
  = (Ret tt,
     after
       (snd (Scraper.init unit "" "s3cr3t"
               (snd (Scraper.forum_url_loop unit Demo.static_get Demo.parse Demo.urljoin 2
                       "s3cr3t" [Demo.forum; ""] []
                       (after Demo.start
                          (Prompt "Enter your MoodleSession cookie value: "))))))
       (Log ERROR ("An unexpected error occurred: "
                   ++ "[Errno 21] Is a directory: '/opt/scraper/outputdata'"))) /\
  file_writes
    (trace (snd (Scraper.main unit Demo.static_get Demo.parse Demo.urljoin
                   Demo.output_dir Demo.path_join Demo.open_error 2
                   ["s3cr3t"; Demo.forum; ""] (Some "") Demo.start)))
  = [].
Proof. split; vm_compute; reflexivity. Qed.
